(** * FMR monitoring dashboard: the project status classifier and the
      map/table presenter of [app.py]

    The development embeds [determine_project_status] and the part of the
    dashboard script that classifies the project frame and hands it to the
    map layer and to the table widget.  The Python standard library and
    pandas/pydeck operations the code calls ([datetime.strptime],
    [date.__sub__], [DataFrame.apply], column selection, the scatterplot
    accessors) are embedded next to it, as far as the script uses them.

    Conventions.
    - A Python [int] is a [Z]; a Python [float] is a primitive float.
    - A Python [str] is a Rocq [string]: a sequence of code points below
      256.  On that range the characters matched by the regex class [\d]
      are exactly ['0'..'9'].
    - A Python call that may raise returns a [result]. *)

From Stdlib Require Import ZArith List String Ascii Bool Lia PrimFloat.
From Stdlib Require Import DecimalString.
Import ListNotations.

Local Open Scope string_scope.
Local Open Scope Z_scope.

(** ** Exceptions and results *)

Inductive exn : Type :=
| ValueError
| TypeError
| KeyError
| OverflowError
| LibraryError (name : string).   (* a class the code does not name *)

Inductive result (A : Type) : Type :=
| Ok (a : A)
| Raise (e : exn).

Arguments Ok {A} a.
Arguments Raise {A} e.

Definition bind {A B : Type} (c : result A) (f : A -> result B) : result B :=
  match c with
  | Ok a => f a
  | Raise e => Raise e
  end.

Notation "x <- c ;; k" := (bind c (fun x => k))
  (at level 61, c at next level, right associativity).
Notation "' p <- c ;; k" := (bind c (fun x => let p := x in k))
  (at level 61, p pattern, c at next level, right associativity).

Definition is_ok {A : Type} (r : result A) : bool :=
  match r with Ok _ => true | Raise _ => false end.

(** ** [datetime]: dates and their proleptic Gregorian ordinals *)

Module datetime.

Definition MINYEAR : Z := 1.
Definition MAXYEAR : Z := 9999.

(** [_DAYS_IN_MONTH] and [_DAYS_BEFORE_MONTH]; index 0 is the placeholder
    the Python tables carry ([-1] and [-1]). *)
Definition _DAYS_IN_MONTH : list Z :=
  [-1; 31; 28; 31; 30; 31; 30; 31; 31; 30; 31; 30; 31].

Definition _DAYS_BEFORE_MONTH : list Z :=
  [-1; 0; 31; 59; 90; 120; 151; 181; 212; 243; 273; 304; 334].

Definition tbl (t : list Z) (i : Z) : Z := nth (Z.to_nat i) t 0.

Definition _is_leap (year : Z) : bool :=
  (year mod 4 =? 0) && (negb (year mod 100 =? 0) || (year mod 400 =? 0)).

Definition _days_before_year (year : Z) : Z :=
  let y := year - 1 in
  y * 365 + y / 4 - y / 100 + y / 400.

Definition _days_in_month (year month : Z) : Z :=
  if (month =? 2) && _is_leap year then 29 else tbl _DAYS_IN_MONTH month.

Definition _days_before_month (year month : Z) : Z :=
  tbl _DAYS_BEFORE_MONTH month
  + (if (2 <? month) && _is_leap year then 1 else 0).

Definition _ymd2ord (year month day : Z) : Z :=
  _days_before_year year + _days_before_month year month + day.

Definition _DI400Y : Z := Eval cbv in _days_before_year 401.
Definition _DI100Y : Z := Eval cbv in _days_before_year 101.
Definition _DI4Y : Z := Eval cbv in _days_before_year 5.
Definition _MAXORDINAL : Z := Eval cbv in _ymd2ord 9999 12 31.

(** [_ord2ymd]: ordinal to (year, month, day). *)
Definition _ord2ymd (n0 : Z) : Z * Z * Z :=
  let n := n0 - 1 in
  let n400 := n / _DI400Y in
  let n := n mod _DI400Y in
  let year := n400 * 400 + 1 in
  let n100 := n / _DI100Y in
  let n := n mod _DI100Y in
  let n4 := n / _DI4Y in
  let n := n mod _DI4Y in
  let n1 := n / 365 in
  let n := n mod 365 in
  let year := year + (n100 * 100 + n4 * 4 + n1) in
  if (n1 =? 4) || (n100 =? 4) then (year - 1, 12, 31)
  else
    let leapyear := (n1 =? 3) && (negb (n4 =? 24) || (n100 =? 3)) in
    let month := Z.shiftr (n + 50) 5 in
    let preceding :=
      tbl _DAYS_BEFORE_MONTH month
      + (if (2 <? month) && leapyear then 1 else 0) in
    let '(month, preceding) :=
      if n <? preceding
      then (month - 1,
            preceding
            - (tbl _DAYS_IN_MONTH (month - 1)
               + (if (month - 1 =? 2) && leapyear then 1 else 0)))
      else (month, preceding) in
    (year, month, n - preceding + 1).

(** A [date] object.  The constructor [date_new] is the only way the
    program obtains one, so every date it handles satisfies [valid]. *)
Record date : Type := mkdate { year : Z; month : Z; day : Z }.

Definition _check_date_fields (y m d : Z) : bool :=
  (MINYEAR <=? y) && (y <=? MAXYEAR)
  && (1 <=? m) && (m <=? 12)
  && (1 <=? d) && (d <=? _days_in_month y m).

Definition date_new (y m d : Z) : result date :=
  if _check_date_fields y m d then Ok (mkdate y m d) else Raise ValueError.

Definition valid (d : date) : Prop :=
  _check_date_fields (year d) (month d) (day d) = true.

Definition toordinal (d : date) : Z := _ymd2ord (year d) (month d) (day d).

Definition fromordinal (n : Z) : date :=
  let '(y, m, d) := _ord2ymd n in mkdate y m d.

(** [date.__sub__] on two dates, followed by [.days]. *)
Definition sub_days (a b : date) : Z := toordinal a - toordinal b.

(** [date.__add__] with [timedelta(days=k)]. *)
Definition add_days (a : date) (k : Z) : result date :=
  let o := toordinal a + k in
  if (0 <? o) && (o <=? _MAXORDINAL) then Ok (fromordinal o)
  else Raise OverflowError.

(** [date.__lt__]: comparison of the (year, month, day) tuples. *)
Definition date_ltb (a b : date) : bool :=
  (year a <? year b)
  || ((year a =? year b)
      && ((month a <? month b)
          || ((month a =? month b) && (day a <? day b)))).

(** The month estimate of [_ord2ymd] as a function of the day index [n]
    within the year, and the check of it that the proofs tabulate. *)
Definition month_and_day (n : Z) (leapyear : bool) : Z * Z :=
  let month := Z.shiftr (n + 50) 5 in
  let preceding :=
    tbl _DAYS_BEFORE_MONTH month
    + (if (2 <? month) && leapyear then 1 else 0) in
  let '(month, preceding) :=
    if n <? preceding
    then (month - 1,
          preceding
          - (tbl _DAYS_IN_MONTH (month - 1)
             + (if (month - 1 =? 2) && leapyear then 1 else 0)))
    else (month, preceding) in
  (month, n - preceding + 1).

Definition month_and_day_ok (leapyear : bool) (i : nat) : bool :=
  let n := Z.of_nat i in
  let '(m, d) := month_and_day n leapyear in
  (1 <=? m) && (m <=? 12) && (1 <=? d)
  && (d <=? (if (m =? 2) && leapyear then 29 else tbl _DAYS_IN_MONTH m))
  && (tbl _DAYS_BEFORE_MONTH m
      + (if (2 <? m) && leapyear then 1 else 0) + d =? n + 1).

End datetime.

(** ** [re]: the fragment of Python's backtracking matcher that the
       pattern of ["%Y-%m-%d"] needs *)

Module re.

Inductive regex : Type :=
| Lit (c : ascii)                 (* a literal character *)
| Digit                           (* \d *)
| Range (lo hi : ascii)           (* [lo-hi] *)
| Seq (r1 r2 : regex)             (* r1r2 *)
| Alt (r1 r2 : regex)             (* r1|r2, tried left to right *)
| Group (name : string) (r : regex).   (* (?P<name>r) *)

Definition code (c : ascii) : N := N_of_ascii c.

Definition in_range (lo hi c : ascii) : bool :=
  (code lo <=? code c)%N && (code c <=? code hi)%N.

Definition is_digit (c : ascii) : bool := in_range "0" "9" c.

Definition groupdict : Type := list (string * string).

(** [re_match r i s caps k] matches [r] at position [i], where [s] is the
    subject from [i] on.  The continuation [k] receives the end position,
    the rest of the subject and the groups; when it fails the matcher
    backtracks into the next alternative. *)
Fixpoint re_match {A : Type} (r : regex) (i : nat) (s : string)
    (caps : groupdict) (k : nat -> string -> groupdict -> option A)
  : option A :=
  match r with
  | Lit c =>
      match s with
      | String c' s' => if Ascii.eqb c c' then k (S i) s' caps else None
      | EmptyString => None
      end
  | Digit =>
      match s with
      | String c' s' => if is_digit c' then k (S i) s' caps else None
      | EmptyString => None
      end
  | Range lo hi =>
      match s with
      | String c' s' => if in_range lo hi c' then k (S i) s' caps else None
      | EmptyString => None
      end
  | Seq r1 r2 =>
      re_match r1 i s caps (fun j s' caps' => re_match r2 j s' caps' k)
  | Alt r1 r2 =>
      match re_match r1 i s caps k with
      | Some x => Some x
      | None => re_match r2 i s caps k
      end
  | Group name r1 =>
      re_match r1 i s caps
        (fun j s' caps' => k j s' ((name, substring 0 (j - i) s) :: caps'))
  end.

(** A match object: [end()] and [groupdict()]. *)
Record Match : Type := mkMatch { m_end : nat; m_groups : groupdict }.

(** [regex.match(string)]: anchored at position 0, not at the end. *)
Definition match_ (r : regex) (data : string) : option Match :=
  re_match r 0 data [] (fun j _ caps => Some (mkMatch j caps)).

Fixpoint getitem (d : groupdict) (key : string) : result string :=
  match d with
  | [] => Raise KeyError
  | (k, v) :: d' => if String.eqb k key then Ok v else getitem d' key
  end.

End re.

(** ** [int(str)] on decimal digits with surrounding whitespace

    Signs and underscores, which no group of the date pattern can
    capture, are rejected here. *)

(** The whitespace that [int] strips, below code point 256: TAB..CR, the
    blank, NEL and the no-break space. *)
Definition is_space (c : ascii) : bool :=
  re.in_range "009" "013" c || Ascii.eqb c " "
  || Ascii.eqb c "133" || Ascii.eqb c "160".

Definition digit_value (c : ascii) : Z := Z.of_N (re.code c) - 48.

Fixpoint all_space (s : string) : bool :=
  match s with
  | EmptyString => true
  | String c s' => is_space c && all_space s'
  end.

Fixpoint int_digits (s : string) (acc : Z) : option Z :=
  match s with
  | EmptyString => Some acc
  | String c s' =>
      if re.is_digit c then int_digits s' (10 * acc + digit_value c)
      else if all_space s then Some acc else None
  end.

Fixpoint int (s : string) : result Z :=
  match s with
  | EmptyString => Raise ValueError
  | String c s' =>
      if is_space c then int s'
      else if re.is_digit c
           then match int_digits s 0 with
                | Some n => Ok n
                | None => Raise ValueError
                end
           else Raise ValueError
  end.

(** ** [_strptime]: [datetime.strptime(s, "%Y-%m-%d").date()] *)

Module _strptime.
Import re.

(** The entries of [TimeRE] for the three directives. *)
Definition re_Y : regex :=
  Group "Y" (Seq Digit (Seq Digit (Seq Digit Digit))).

Definition re_m : regex :=
  Group "m" (Alt (Seq (Lit "1") (Range "0" "2"))
            (Alt (Seq (Lit "0") (Range "1" "9"))
                 (Range "1" "9"))).

Definition re_d : regex :=
  Group "d" (Alt (Seq (Lit "3") (Range "0" "1"))
            (Alt (Seq (Range "1" "2") Digit)
            (Alt (Seq (Lit "0") (Range "1" "9"))
            (Alt (Range "1" "9")
                 (Seq (Lit " ") (Range "1" "9")))))).

(** The compiled pattern of the format ["%Y-%m-%d"]:
    [(?P<Y>\d\d\d\d)-(?P<m>1[0-2]|0[1-9]|[1-9])-(?P<d>3[0-1]|[1-2]\d|0[1-9]|[1-9]| [1-9])]. *)
Definition format_regex : regex :=
  Seq re_Y (Seq (Lit "-") (Seq re_m (Seq (Lit "-") re_d))).

Definition strptime_date (data_string : string) : result datetime.date :=
  match match_ format_regex data_string with
  | None => Raise ValueError      (* time data does not match format *)
  | Some found =>
      if negb (Nat.eqb (String.length data_string) (m_end found))
      then Raise ValueError       (* unconverted data remains *)
      else
        let found_dict := m_groups found in
        year <- (y <- getitem found_dict "Y" ;; int y) ;;
        month <- (m <- getitem found_dict "m" ;; int m) ;;
        day <- (d <- getitem found_dict "d" ;; int d) ;;
        datetime.date_new year month day
  end.

End _strptime.

(** ** The status classifier *)

Definition determine_project_status
    (target_date_str : string) (progress : Z)
    (evaluation_date : datetime.date) : result (string * list Z) :=
  target_date <- _strptime.strptime_date target_date_str ;;
  let days_remaining := datetime.sub_days target_date evaluation_date in
  if progress >=? 100 then
    Ok ("Completed", [0; 255; 0; 160])
  else if days_remaining <? 0 then
    Ok ("Delayed", [255; 0; 0; 160])
  else if (days_remaining <=? 30) && (progress <? 80) then
    Ok ("At Risk", [255; 165; 0; 160])
  else
    Ok ("On Track", [0; 150; 255; 160]).

(** ** The classifier on any Python [str]

    A [str] holds code points up to 1114111.  Two tables of the
    interpreter's Unicode database enter the parse: the decimal digits,
    which [\d] matches and [int] converts, and the white space that
    [int] strips.  They grow from one Unicode version to the next, so
    the embedding takes them as a parameter; [unicode_14] is the
    database of CPython 3.11. *)

Module unicode.
Import re.

Definition ustring : Type := list N.

Definition codes (s : string) : ustring :=
  map N_of_ascii (list_ascii_of_string s).

Record Database : Type := mkDatabase {
  decimal : N -> option Z;
  int_space : N -> bool;
  decimal_not_space :
    forall c v, decimal c = Some v -> int_space c = false;
  decimal_latin1 :
    forall c : ascii,
      decimal (code c) = if is_digit c then Some (digit_value c) else None;
  int_space_latin1 :
    forall c : ascii, int_space (code c) = is_space c
}.

Definition groupdict : Type := list (string * ustring).

Definition is_decimal (U : Database) (c : N) : bool :=
  match decimal U c with Some _ => true | None => false end.

Definition in_range (lo hi : ascii) (c : N) : bool :=
  (code lo <=? c)%N && (c <=? code hi)%N.

(** The matcher of [re], on code points. *)
Fixpoint re_match {A : Type} (U : Database) (r : regex) (i : nat)
    (s : ustring) (caps : groupdict)
    (k : nat -> ustring -> groupdict -> option A) : option A :=
  match r with
  | Lit c =>
      match s with
      | c' :: s' => if N.eqb (code c) c' then k (S i) s' caps else None
      | [] => None
      end
  | Digit =>
      match s with
      | c' :: s' => if is_decimal U c' then k (S i) s' caps else None
      | [] => None
      end
  | Range lo hi =>
      match s with
      | c' :: s' => if in_range lo hi c' then k (S i) s' caps else None
      | [] => None
      end
  | Seq r1 r2 =>
      re_match U r1 i s caps (fun j s' caps' => re_match U r2 j s' caps' k)
  | Alt r1 r2 =>
      match re_match U r1 i s caps k with
      | Some x => Some x
      | None => re_match U r2 i s caps k
      end
  | Group name r1 =>
      re_match U r1 i s caps
        (fun j s' caps' => k j s' ((name, firstn (j - i) s) :: caps'))
  end.

Record Match : Type := mkMatch { m_end : nat; m_groups : groupdict }.

Definition match_ (U : Database) (r : regex) (data : ustring)
  : option Match :=
  re_match U r 0 data [] (fun j _ caps => Some (mkMatch j caps)).

Fixpoint getitem (d : groupdict) (key : string) : result ustring :=
  match d with
  | [] => Raise KeyError
  | (k, v) :: d' => if String.eqb k key then Ok v else getitem d' key
  end.

(** [int(str)], on code points: decimal digits of any script between
    white space; signs and underscores, which no group of the date
    pattern can capture, are rejected as above. *)
Fixpoint int_digits (U : Database) (s : ustring) (acc : Z) : option Z :=
  match s with
  | [] => Some acc
  | c :: s' =>
      match decimal U c with
      | Some v => int_digits U s' (10 * acc + v)
      | None => if forallb (int_space U) s then Some acc else None
      end
  end.

Fixpoint int (U : Database) (s : ustring) : result Z :=
  match s with
  | [] => Raise ValueError
  | c :: s' =>
      if int_space U c then int U s'
      else if is_decimal U c
           then match int_digits U s 0 with
                | Some n => Ok n
                | None => Raise ValueError
                end
           else Raise ValueError
  end.

(** [datetime.strptime(s, "%Y-%m-%d").date()] *)
Definition strptime_date (U : Database) (data_string : ustring)
  : result datetime.date :=
  match match_ U _strptime.format_regex data_string with
  | None => Raise ValueError      (* time data does not match format *)
  | Some found =>
      if negb (Nat.eqb (List.length data_string) (m_end found))
      then Raise ValueError       (* unconverted data remains *)
      else
        let found_dict := m_groups found in
        year <- (y <- getitem found_dict "Y" ;; int U y) ;;
        month <- (m <- getitem found_dict "m" ;; int U m) ;;
        day <- (d <- getitem found_dict "d" ;; int U d) ;;
        datetime.date_new year month day
  end.

Definition determine_project_status (U : Database)
    (target_date_str : ustring) (progress : Z)
    (evaluation_date : datetime.date) : result (string * list Z) :=
  target_date <- strptime_date U target_date_str ;;
  let days_remaining := datetime.sub_days target_date evaluation_date in
  if progress >=? 100 then
    Ok ("Completed", [0; 255; 0; 160])
  else if days_remaining <? 0 then
    Ok ("Delayed", [255; 0; 0; 160])
  else if (days_remaining <=? 30) && (progress <? 80) then
    Ok ("At Risk", [255; 165; 0; 160])
  else
    Ok ("On Track", [0; 150; 255; 160]).

(** The tables of Unicode 14.0: the zero of every run of ten decimal
    digits, and the white space that [int] strips. *)
Definition decimal_zeros : list N :=
  [48; 1632; 1776; 1984; 2406; 2534; 2662; 2790; 2918; 3046; 3174; 3302;
   3430; 3558; 3664; 3792; 3872; 4160; 4240; 6112; 6160; 6470; 6608; 6784;
   6800; 6992; 7088; 7232; 7248; 42528; 43216; 43264; 43472; 43504; 43600;
   44016; 65296; 66720; 68912; 69734; 69872; 69942; 70096; 70384; 70736;
   70864; 71248; 71360; 71472; 71904; 72016; 72784; 73040; 73120; 92768;
   92864; 93008; 120782; 120792; 120802; 120812; 120822; 123200; 123632;
   125264; 130032]%N.

Definition int_spaces : list N :=
  [9; 10; 11; 12; 13; 32; 133; 160; 5760; 8192; 8193; 8194; 8195; 8196;
   8197; 8198; 8199; 8200; 8201; 8202; 8232; 8233; 8239; 8287; 12288]%N.

Fixpoint decimal_in (zeros : list N) (c : N) : option Z :=
  match zeros with
  | [] => None
  | z :: zeros' =>
      if (z <=? c)%N && (c <=? z + 9)%N then Some (Z.of_N (c - z))
      else decimal_in zeros' c
  end.

Definition decimal_14 (c : N) : option Z := decimal_in decimal_zeros c.

Definition int_space_14 (c : N) : bool := existsb (N.eqb c) int_spaces.

End unicode.

(** ** The tables of Unicode 14.0 form a database *)

Lemma decimal_14_not_space (c : N) (v : Z) :
  unicode.decimal_14 c = Some v -> unicode.int_space_14 c = false.
Proof.
  intros H. destruct (unicode.int_space_14 c) eqn:S; [ | reflexivity ].
  unfold unicode.int_space_14 in S. apply existsb_exists in S.
  destruct S as (x & I & E). apply N.eqb_eq in E. subst x.
  cbv [unicode.int_spaces] in I. cbn [In] in I.
  repeat (destruct I as [<- | I]; [vm_compute in H; discriminate | ]).
  contradiction.
Qed.

Lemma decimal_14_latin1 (c : ascii) :
  unicode.decimal_14 (re.code c)
  = if re.is_digit c then Some (digit_value c) else None.
Proof.
  destruct c as [[] [] [] [] [] [] [] []]; vm_compute; reflexivity.
Qed.

Lemma int_space_14_latin1 (c : ascii) :
  unicode.int_space_14 (re.code c) = is_space c.
Proof.
  destruct c as [[] [] [] [] [] [] [] []]; vm_compute; reflexivity.
Qed.

(** The database of CPython 3.11. *)
Definition unicode_14 : unicode.Database :=
  unicode.mkDatabase unicode.decimal_14 unicode.int_space_14
                     decimal_14_not_space decimal_14_latin1
                     int_space_14_latin1.

(** ** The hidden state behind [strptime]

    [_strptime] keeps module-level state: [_TimeRE_cache], the table of
    directive patterns built for the locale it last saw, and
    [_regex_cache], a dict of compiled patterns by format.  Each call
    compares the locale, the time zone names and the daylight flag in
    force with those the table was built for, drops both caches when
    they differ, drops the dict when it holds more than five patterns,
    and compiles the format when the dict does not have it. *)

Module strptime_state.
Import re _strptime.

(** What the call compares: [locale.getlocale(LC_TIME)], [time.tzname]
    and [time.daylight]. *)
Record locale_time : Type := mklocale {
  lang : option string * option string;
  tzname : string * string;
  daylight : Z
}.

Definition option_eqb (a b : option string) : bool :=
  match a, b with
  | Some x, Some y => String.eqb x y
  | None, None => true
  | _, _ => false
  end.

Definition locale_eqb (a b : locale_time) : bool :=
  option_eqb (fst (lang a)) (fst (lang b))
  && option_eqb (snd (lang a)) (snd (lang b))
  && String.eqb (fst (tzname a)) (fst (tzname b))
  && String.eqb (snd (tzname a)) (snd (tzname b))
  && (daylight a =? daylight b).

(** A dict with [str] keys: [d.get(key)] and [d[key] = v]. *)
Fixpoint dict_get {V : Type} (d : list (string * V)) (key : string)
  : option V :=
  match d with
  | [] => None
  | (k, v) :: d' => if String.eqb k key then Some v else dict_get d' key
  end.

Fixpoint dict_set {V : Type} (d : list (string * V)) (key : string) (v : V)
  : list (string * V) :=
  match d with
  | [] => [(key, v)]
  | (k, v') :: d' =>
      if String.eqb k key then (k, v) :: d' else (k, v') :: dict_set d' key v
  end.

(** The interpreter state that [_strptime] reads and writes. *)
Record State : Type := mkState {
  env : locale_time;             (* the locale and time zone in force *)
  _TimeRE_cache : locale_time;   (* [_TimeRE_cache.locale_time] *)
  _regex_cache : list (string * regex)
}.

Definition _CACHE_MAX_SIZE : nat := 5.

(** [TimeRE.pattern] on the formats made of [%Y], [%m], [%d], each at
    most once, and characters that stand for themselves in a pattern (no
    letter, blank, [%] or regex operator): the directive patterns and the
    characters, in sequence.  The entries of the three directives do not
    depend on the locale. *)
Definition directive (c : ascii) : option regex :=
  if Ascii.eqb c "Y" then Some re_Y
  else if Ascii.eqb c "m" then Some re_m
  else if Ascii.eqb c "d" then Some re_d
  else None.

Definition plain_literal (c : ascii) : bool :=
  existsb (Ascii.eqb c) (list_ascii_of_string "-/:,;_=#&<>!@~").

Definition then_ (r : regex) (rest : option regex) (at_end : bool)
  : option regex :=
  if at_end then Some r else option_map (Seq r) rest.

Definition is_empty (s : string) : bool :=
  match s with EmptyString => true | String _ _ => false end.

Fixpoint TimeRE_pattern (seen : list ascii) (format : string)
  : option regex :=
  match format with
  | EmptyString => None
  | String c rest =>
      if Ascii.eqb c "%" then
        match rest with
        | EmptyString => None
        | String d rest' =>
            if existsb (Ascii.eqb d) seen then None
            else
              match directive d with
              | Some r =>
                  then_ r (TimeRE_pattern (d :: seen) rest') (is_empty rest')
              | None => None
              end
        end
      else if plain_literal c
           then then_ (Lit c) (TimeRE_pattern seen rest) (is_empty rest)
           else None
  end.

(** [_TimeRE_cache.compile(format)].  [other] stands for the outcome on
    all other formats (directives that depend on the locale, blanks,
    letters, repeated or unknown directives), an exception included. *)
Definition TimeRE_compile (other : locale_time -> string -> result regex)
    (locale : locale_time) (format : string) : result regex :=
  match TimeRE_pattern [] format with
  | Some r => Ok r
  | None => other locale format
  end.

(** The part of [_strptime] under [_cache_lock]: from the format to its
    compiled pattern.  A [KeyError] of [compile] is a bad directive and
    becomes a [ValueError]. *)
Definition format_regex_of (other : locale_time -> string -> result regex)
    (format : string) (st : State) : result regex * State :=
  let st :=
    if locale_eqb (env st) (_TimeRE_cache st) then st
    else mkState (env st) (env st) [] in
  let st :=
    if Nat.ltb _CACHE_MAX_SIZE (List.length (_regex_cache st))
    then mkState (env st) (_TimeRE_cache st) []
    else st in
  match dict_get (_regex_cache st) format with
  | Some format_regex => (Ok format_regex, st)
  | None =>
      match TimeRE_compile other (_TimeRE_cache st) format with
      | Raise KeyError => (Raise ValueError, st)
      | Raise e => (Raise e, st)
      | Ok format_regex =>
          (Ok format_regex,
           mkState (env st) (_TimeRE_cache st)
                   (dict_set (_regex_cache st) format format_regex))
      end
  end.

(** The rest of [_strptime], on the pattern it got. *)
Definition strptime_with (format_regex : regex) (data_string : string)
  : result datetime.date :=
  match match_ format_regex data_string with
  | None => Raise ValueError
  | Some found =>
      if negb (Nat.eqb (String.length data_string) (m_end found))
      then Raise ValueError
      else
        let found_dict := m_groups found in
        year <- (y <- getitem found_dict "Y" ;; int y) ;;
        month <- (m <- getitem found_dict "m" ;; int m) ;;
        day <- (d <- getitem found_dict "d" ;; int d) ;;
        datetime.date_new year month day
  end.

(** [datetime.strptime(s, "%Y-%m-%d").date()] in a state. *)
Definition strptime_date (other : locale_time -> string -> result regex)
    (data_string : string) (st : State) : result datetime.date * State :=
  match format_regex_of other "%Y-%m-%d" st with
  | (Raise e, st') => (Raise e, st')
  | (Ok format_regex, st') => (strptime_with format_regex data_string, st')
  end.

(** [determine_project_status] in a state. *)
Definition determine_project_status
    (other : locale_time -> string -> result regex)
    (target_date_str : string) (progress : Z)
    (evaluation_date : datetime.date) (st : State)
  : result (string * list Z) * State :=
  match strptime_date other target_date_str st with
  | (Raise e, st') => (Raise e, st')
  | (Ok target_date, st') =>
      let days_remaining := datetime.sub_days target_date evaluation_date in
      (if progress >=? 100 then
         Ok ("Completed", [0; 255; 0; 160])
       else if days_remaining <? 0 then
         Ok ("Delayed", [255; 0; 0; 160])
       else if (days_remaining <=? 30) && (progress <? 80) then
         Ok ("At Risk", [255; 165; 0; 160])
       else
         Ok ("On Track", [0; 150; 255; 160]),
       st')
  end.



End strptime_state.

(** ** [pandas]: the frame operations the script uses *)

Module pandas.

Inductive value : Type :=
| VStr (s : string)
| VInt (n : Z)
| VFloat (x : float)
| VList (l : list Z).

(** A row (or any labelled vector): label/value pairs in column order. *)
Definition Series : Type := list (string * value).

(** A frame: labelled columns, in column order. *)
Definition DataFrame : Type := list (string * list value).

Definition nrows (df : DataFrame) : nat :=
  match df with
  | [] => 0%nat
  | (_, col) :: _ => List.length col
  end.

Definition column_labels (df : DataFrame) : list string := map fst df.

(** [pd.DataFrame(data)] for a dict of lists: all lists must have the
    same length. *)
Definition DataFrame_new (data : list (string * list value))
  : result DataFrame :=
  if forallb (fun c => Nat.eqb (List.length (snd c)) (nrows data)) data
  then Ok data else Raise ValueError.

Definition row (df : DataFrame) (i : nat) : Series :=
  flat_map (fun c => match nth_error (snd c) i with
                     | Some v => [(fst c, v)]
                     | None => []
                     end) df.

Definition rows (df : DataFrame) : list Series :=
  map (row df) (seq 0 (nrows df)).

Fixpoint Series_getitem (r : Series) (label : string) : result value :=
  match r with
  | [] => Raise KeyError
  | (l, v) :: r' => if String.eqb l label then Ok v else Series_getitem r' label
  end.

Fixpoint Series_get (r : Series) (label : string) : option value :=
  match r with
  | [] => None
  | (l, v) :: r' => if String.eqb l label then Some v else Series_get r' label
  end.

Fixpoint mapM {A B : Type} (f : A -> result B) (l : list A)
  : result (list B) :=
  match l with
  | [] => Ok []
  | a :: l' => b <- f a ;; bs <- mapM f l' ;; Ok (b :: bs)
  end.

(** [df.apply(f, axis=1)] where [f] returns a two-element Series: the
    result frame has the columns [0] and [1], one row per row of [df], in
    the order of [df].  On a frame without rows pandas does not call [f]
    and returns a copy of the frame. *)
Definition apply_axis1 (f : Series -> result (value * value))
    (df : DataFrame) : result DataFrame :=
  if Nat.eqb (nrows df) 0 then Ok df
  else
    rs <- mapM f (rows df) ;;
    Ok [("0", map fst rs); ("1", map snd rs)].

(** [df[label] = col]: replace the column in place, or append it. *)
Fixpoint set_column (label : string) (col : list value) (df : DataFrame)
  : DataFrame :=
  match df with
  | [] => [(label, col)]
  | (l, c) :: df' =>
      if String.eqb l label then (l, col) :: df'
      else (l, c) :: set_column label col df'
  end.

(** [df[keys] = value] with a frame on the right: the columns of [value]
    are assigned to the keys by position. *)
Definition setitem_frame (keys : list string) (value : DataFrame)
    (df : DataFrame) : result DataFrame :=
  if negb (Nat.eqb (List.length value) (List.length keys))
  then Raise ValueError       (* Columns must be same length as key *)
  else Ok (fold_left (fun acc kc => set_column (fst kc) (snd (snd kc)) acc)
                     (combine keys value) df).

Fixpoint get_column (df : DataFrame) (label : string)
  : result (list value) :=
  match df with
  | [] => Raise KeyError
  | (l, c) :: df' => if String.eqb l label then Ok c else get_column df' label
  end.

(** [df[labels]]: the listed columns, in the listed order. *)
Definition getitem_columns (labels : list string) (df : DataFrame)
  : result DataFrame :=
  mapM (fun l => c <- get_column df l ;; Ok (l, c)) labels.

End pandas.

(** ** [pydeck]: what a scatterplot layer draws *)

Module pydeck.
Import pandas.

(** One point of a [ScatterplotLayer]: deck.gl evaluates the accessors on
    every record of [data]; a field that the record lacks is undefined. *)
Record marker : Type := mkmarker {
  position : list (option value);
  fill_color : option value;
  radius : Z
}.

(** [Layer('ScatterplotLayer', data=df, get_position='[lon, lat]',
    get_color='color', get_radius=300)]. *)
Definition ScatterplotLayer (df : DataFrame) : list marker :=
  map (fun r => mkmarker [Series_get r "lon"; Series_get r "lat"]
                         (Series_get r "color") 300)
      (rows df).

End pydeck.

(** ** The dashboard tab *)

Import pandas.

(** The mock data of the script. *)
#[local] Set Warnings "-inexact-float".

Definition data : list (string * list value) :=
  [ ("project_name", [VStr "Brgy. San Jose Road Concreting";
                      VStr "Sta. Cruz Repair Phase 2";
                      VStr "Mandurriao-Jaro Link"]);
    ("lat", [VFloat 10.7202; VFloat 10.7310; VFloat 10.7150]);
    ("lon", [VFloat 122.5621; VFloat 122.5500; VFloat 122.5400]);
    ("target_date", [VStr "2026-03-15"; VStr "2026-02-10"; VStr "2025-12-01"]);
    ("progress_pct", [VInt 60; VInt 40; VInt 100]) ].

(** The lambda passed to [df.apply].  The classifier is embedded at the
    types of the data model: a [target_date] cell that is not a [str] or a
    [progress_pct] cell that is not an [int] is reported as [TypeError]. *)
Definition classify_row (simulated_date : datetime.date) (r : Series)
  : result (value * value) :=
  target_date <- Series_getitem r "target_date" ;;
  progress_pct <- Series_getitem r "progress_pct" ;;
  match target_date, progress_pct with
  | VStr s, VInt p =>
      ' (status, color) <- determine_project_status s p simulated_date ;;
      Ok (VStr status, VList color)
  | _, _ => Raise TypeError
  end.

Definition table_columns : list string :=
  ["project_name"; "status"; "progress_pct"; "target_date"; "lat"; "lon"].

(** Lines 67-69: the classification of the frame. *)
Definition classify_frame (simulated_date : datetime.date) (df : DataFrame)
  : result DataFrame :=
  applied <- apply_axis1 (classify_row simulated_date) df ;;
  setitem_frame ["status"; "color"] applied df.

(** The two Streamlit calls that draw.  Whether they accept what they
    are given is decided inside Streamlit, pydeck and Arrow (the table
    must convert to an Arrow table, for one), not by this code: they are
    parameters that may raise. *)
Record widgets : Type := mkwidgets {
  st_pydeck_chart : list pydeck.marker -> result unit;
  st_dataframe : DataFrame -> result unit
}.

(** What is on the page. *)
Inductive view : Type :=
| view_map (markers : list pydeck.marker)
| view_directory (table : DataFrame).

(** Lines 71-80: the map layer and the project directory.  The result
    is the views drawn and how the block ended. *)
Definition present (st : widgets) (df : DataFrame)
  : list view * result unit :=
  let layer := pydeck.ScatterplotLayer df in
  match st_pydeck_chart st layer with
  | Raise e => ([], Raise e)
  | Ok _ =>
      match getitem_columns table_columns df with
      | Raise e => ([view_map layer], Raise e)
      | Ok table =>
          match st_dataframe st table with
          | Raise e => ([view_map layer], Raise e)
          | Ok _ => ([view_map layer; view_directory table], Ok tt)
          end
      end
  end.

Definition tab_map (st : widgets) (simulated_date : datetime.date)
    (data : list (string * list value))
  : list view * result unit :=
  match (df <- DataFrame_new data ;; classify_frame simulated_date df) with
  | Raise e => ([], Raise e)
  | Ok df => present st df
  end.

(** What the two calls make of a layer and a table. *)
Definition drawn (st : widgets) (layer : list pydeck.marker)
    (table : DataFrame) : list view * result unit :=
  match st_pydeck_chart st layer with
  | Raise e => ([], Raise e)
  | Ok _ =>
      match st_dataframe st table with
      | Raise e => ([view_map layer], Raise e)
      | Ok _ => ([view_map layer; view_directory table], Ok tt)
      end
  end.

(** Widgets that accept everything. *)
Definition accepting : widgets :=
  mkwidgets (fun _ => Ok tt) (fun _ => Ok tt).

(** ** The ambient state of a script run

    What a Streamlit run can read besides its arguments: the clock, the
    value held by the date widget, and the random generator.  The
    generator is abstracted as a sequence of integers, one per call of
    [randint]: the call returns its entry reduced into the range asked
    for, so that every value of the range can come out.  CPython's
    [randint] draws [getrandbits] again until the draw falls below the
    width of the range; which value that loop settles on for a given
    seed and how many words of the Mersenne Twister it consumes is not
    modelled, and that the loop ends is taken for granted. *)

Record World : Type := mkWorld {
  clock_today : datetime.date;
  date_input_value : option datetime.date;
  rng_draws : nat -> Z;
  rng_pos : nat
}.

Definition script (A : Type) : Type := World -> result A * World.

Definition sret {A : Type} (a : A) : script A := fun w => (Ok a, w).

Definition sbind {A B : Type} (c : script A) (f : A -> script B)
  : script B :=
  fun w => match c w with
           | (Ok a, w') => f a w'
           | (Raise e, w') => (Raise e, w')
           end.

(** [datetime.now().date()] *)
Definition datetime_now_date : script datetime.date :=
  fun w => (Ok (clock_today w), w).

(** [st.date_input(label, default)] *)
Definition st_date_input (default : datetime.date) : script datetime.date :=
  fun w => (Ok (match date_input_value w with
                | Some d => d
                | None => default
                end), w).

(** [random.randint(a, b)]: some integer of [a..b], and a generator
    that has moved on. *)
Definition random_randint (a b : Z) : script Z :=
  fun w => (Ok (a + rng_draws w (rng_pos w) mod (b - a + 1)),
            mkWorld (clock_today w) (date_input_value w)
                    (rng_draws w) (S (rng_pos w))).

Definition mock_ai_prediction {Image : Type} (image : Image)
  : script (string * Z) :=
  sbind (random_randint 10 95) (fun score =>
  let classification :=
    if score >? 50 then "Severe Defect (Potholes/Erosion)"
    else "Normal Unpaved Surface" in
  sret (classification, score)).

(** The first tab, from the date widget to the two views. *)
Definition run_tab_map (st : widgets)
  : World -> (list view * result unit) * World :=
  fun w =>
    match sbind datetime_now_date st_date_input w with
    | (Ok simulated_date, w') => (tab_map st simulated_date data, w')
    | (Raise e, w') => (([], Raise e), w')
    end.

(** ** Specification-side definitions *)

(** The alpha channel of an RGBA colour; deck.gl draws a colour fully
    opaque when its alpha is 255. *)
Definition alpha (color : list Z) : Z := nth 3 color 0.

Definition fully_opaque (color : list Z) : Prop := alpha color = 255.

(** The strings that the format ["%Y-%m-%d"] denotes, field by field,
    each with the number it stands for: a year of four digits; a month
    [10]..[12], [01]..[09] or [1]..[9]; a day [30]..[31], [10]..[29],
    [01]..[09], [1]..[9], or a blank followed by [1]..[9]. *)
Inductive year_field : string -> Z -> Prop :=
| year_dddd a b c d :
    re.is_digit a = true -> re.is_digit b = true ->
    re.is_digit c = true -> re.is_digit d = true ->
    year_field (String a (String b (String c (String d ""))))
               (1000 * digit_value a + 100 * digit_value b
                + 10 * digit_value c + digit_value d).

Inductive month_field : string -> Z -> Prop :=
| month_1x c :
    re.in_range "0" "2" c = true ->
    month_field (String "1" (String c "")) (10 + digit_value c)
| month_0x c :
    re.in_range "1" "9" c = true ->
    month_field (String "0" (String c "")) (digit_value c)
| month_x c :
    re.in_range "1" "9" c = true ->
    month_field (String c "") (digit_value c).

Inductive day_field : string -> Z -> Prop :=
| day_3x c :
    re.in_range "0" "1" c = true ->
    day_field (String "3" (String c "")) (30 + digit_value c)
| day_xx a b :
    re.in_range "1" "2" a = true -> re.is_digit b = true ->
    day_field (String a (String b "")) (10 * digit_value a + digit_value b)
| day_0x c :
    re.in_range "1" "9" c = true ->
    day_field (String "0" (String c "")) (digit_value c)
| day_x c :
    re.in_range "1" "9" c = true ->
    day_field (String c "") (digit_value c)
| day_blank c :
    re.in_range "1" "9" c = true ->
    day_field (String " " (String c "")) (digit_value c).

(** [denotes s d]: [s] is written in the format and names the calendar
    date [d] (a year in [1..9999], a month in [1..12], a day that the
    month has in that year). *)
Definition denotes (s : string) (d : datetime.date) : Prop :=
  exists Y M D,
    s = (Y ++ "-" ++ M ++ "-" ++ D)%string
    /\ year_field Y (datetime.year d)
    /\ month_field M (datetime.month d)
    /\ day_field D (datetime.day d)
    /\ datetime.valid d.

(** [date.isoformat()]: ["%04d-%02d-%02d" % (year, month, day)], for the
    years a date can have. *)
Definition digit_char (n : Z) : ascii := ascii_of_N (Z.to_N (48 + n mod 10)).

Definition isoformat (d : datetime.date) : string :=
  let y := datetime.year d in
  let m := datetime.month d in
  let dd := datetime.day d in
  String (digit_char (y / 1000)) (String (digit_char (y / 100))
  (String (digit_char (y / 10)) (String (digit_char y)
  (String "-" (String (digit_char (m / 10)) (String (digit_char m)
  (String "-" (String (digit_char (dd / 10)) (String (digit_char dd) ""))))))))).

(** ** Definitions used by the statements and proofs below *)

(** The strings a regex denotes, with the groups a match of them binds
    (last group first, as the matcher accumulates them). *)
Inductive matches : re.regex -> string -> re.groupdict -> Prop :=
| matches_Lit c : matches (re.Lit c) (String c "") []
| matches_Digit c : re.is_digit c = true -> matches re.Digit (String c "") []
| matches_Range lo hi c :
    re.in_range lo hi c = true -> matches (re.Range lo hi) (String c "") []
| matches_Seq r1 r2 s1 s2 g1 g2 :
    matches r1 s1 g1 -> matches r2 s2 g2 ->
    matches (re.Seq r1 r2) (s1 ++ s2)%string (g2 ++ g1)%list
| matches_Alt_l r1 r2 s g : matches r1 s g -> matches (re.Alt r1 r2) s g
| matches_Alt_r r1 r2 s g : matches r2 s g -> matches (re.Alt r1 r2) s g
| matches_Group name r s g :
    matches r s g -> matches (re.Group name r) s ((name, s) :: g).

(** The characters of a range, listed. *)
Definition chars_between (lo hi : ascii) : list ascii :=
  map ascii_of_nat
      (seq (nat_of_ascii lo) (S (nat_of_ascii hi) - nat_of_ascii lo)).




(** The target dates of the three sample records. *)
Definition sample_target_1 : datetime.date := datetime.mkdate 2026 3 15.
Definition sample_target_2 : datetime.date := datetime.mkdate 2026 2 10.
Definition sample_target_3 : datetime.date := datetime.mkdate 2025 12 1.

(** The outcome of rules 3 and 4. *)
Definition rule_3_4 (days_remaining progress : Z) : string * list Z :=
  if (days_remaining <=? 30) && (progress <? 80)
  then ("At Risk", [255; 165; 0; 160])
  else ("On Track", [0; 150; 255; 160]).

(** The frame of the script after classification on 2026-01-01. *)
Definition sample_classified : pandas.DataFrame :=
  (data ++ [ ("status", [pandas.VStr "On Track"; pandas.VStr "On Track";
                        pandas.VStr "Completed"]);
            ("color", [pandas.VList [0; 150; 255; 160]%Z;
                       pandas.VList [0; 150; 255; 160]%Z;
                       pandas.VList [0; 255; 0; 160]%Z]) ])%list.

(** ** The rest of the script: project records, the validation tab *)

(** One project of the mock data: the cells of one row of [data]. *)
Record project : Type := mkproject {
  p_name : string;
  p_lat : float;
  p_lon : float;
  p_target_date : string;
  p_progress_pct : Z
}.

(** The dict of lists that the script builds, for any list of projects. *)
Definition frame_of (ps : list project) : list (string * list value) :=
  [ ("project_name", map (fun p => VStr (p_name p)) ps);
    ("lat", map (fun p => VFloat (p_lat p)) ps);
    ("lon", map (fun p => VFloat (p_lon p)) ps);
    ("target_date", map (fun p => VStr (p_target_date p)) ps);
    ("progress_pct", map (fun p => VInt (p_progress_pct p)) ps) ].

Definition sample_projects : list project :=
  [ mkproject "Brgy. San Jose Road Concreting" 10.7202 122.5621
              "2026-03-15" 60;
    mkproject "Sta. Cruz Repair Phase 2" 10.7310 122.5500 "2026-02-10" 40;
    mkproject "Mandurriao-Jaro Link" 10.7150 122.5400 "2025-12-01" 100 ].

(** The call that the lambda of [df.apply] makes for a project. *)
Definition classify_project (simulated_date : datetime.date) (p : project)
  : result (string * list Z) :=
  determine_project_status (p_target_date p) (p_progress_pct p)
                           simulated_date.

(** The row of a project in the frame, and what the tab makes of a list
    of projects once each has its (status, colour) pair: the frame with
    the two new columns, the directory, and the markers. *)
Definition project_row (p : project) : Series :=
  [ ("project_name", VStr (p_name p)); ("lat", VFloat (p_lat p));
    ("lon", VFloat (p_lon p)); ("target_date", VStr (p_target_date p));
    ("progress_pct", VInt (p_progress_pct p)) ].

Definition classified_frame_of (ps : list project)
    (rs : list (string * list Z)) : DataFrame :=
  (frame_of ps ++ [ ("status", map (fun r => VStr (fst r)) rs);
                    ("color", map (fun r => VList (snd r)) rs) ])%list.

Definition directory_of (ps : list project) (rs : list (string * list Z))
  : DataFrame :=
  [ ("project_name", map (fun p => VStr (p_name p)) ps);
    ("status", map (fun r => VStr (fst r)) rs);
    ("progress_pct", map (fun p => VInt (p_progress_pct p)) ps);
    ("target_date", map (fun p => VStr (p_target_date p)) ps);
    ("lat", map (fun p => VFloat (p_lat p)) ps);
    ("lon", map (fun p => VFloat (p_lon p)) ps) ].

Definition markers_of (ps : list project) (rs : list (string * list Z))
  : list pydeck.marker :=
  map (fun pr => pydeck.mkmarker [ Some (VFloat (p_lon (fst pr)));
                                   Some (VFloat (p_lat (fst pr))) ]
                                 (Some (VList (snd (snd pr)))) 300)
      (combine ps rs).

(** The frame with the first row of every column removed. *)
Definition tails (df : DataFrame) : DataFrame :=
  map (fun c => (fst c, tl (snd c))) df.

(** How bad a status is: Completed, On Track, At Risk, Delayed. *)
Definition severity (status : string) : nat :=
  if String.eqb status "Completed" then 0
  else if String.eqb status "On Track" then 1
  else if String.eqb status "At Risk" then 2
  else 3.

(** [str(n)] for an [int]. *)
Definition str (n : Z) : string := NilZero.string_of_int (Z.to_int n).

(** A date with the month and the day written without padding:
    ["%04d-%d-%d" % (year, month, day)]. *)
Definition unpadded (d : datetime.date) : string :=
  let y := datetime.year d in
  (String (digit_char (y / 1000)) (String (digit_char (y / 100))
   (String (digit_char (y / 10)) (String (digit_char y) "")))
   ++ "-" ++ str (datetime.month d) ++ "-" ++ str (datetime.day d))%string.

(** What the script draws on the page, call by call. *)
Inductive widget : Type :=
| st_header (body : string)
| st_markdown (body : string)
| st_image (caption : string)
| st_subheader (body : string)
| st_error (body : string)
| st_success (body : string)
| st_metric (label value : string)
| st_info (body : string).

(** The second tab.  [uploaded_file] is what [st.file_uploader] returned
    and [Image_open] stands for [PIL.Image.open], which may raise.  The
    result is the widgets drawn and how the block ended.  Characters of a
    literal beyond code point 255 appear as their UTF-8 bytes. *)
Definition tab_ai {UploadedFile Image : Type}
    (Image_open : UploadedFile -> result Image)
    (uploaded_file : option UploadedFile)
  : World -> (list widget * result unit) * World :=
  fun w =>
  let page :=
    [ st_header "Automated Visual Validation";
      st_markdown "Upload field imagery to automatically distinguish road defects from normal unpaved surfaces using AI." ] in
  match uploaded_file with
  | None => ((page, Ok tt), w)
  | Some file =>
      match Image_open file with
      | Raise e => ((page, Raise e), w)
      | Ok image =>
          let page := (page ++ [st_image "Uploaded Field Image"])%list in
          match mock_ai_prediction image w with
          | (Raise e, w') => ((page, Raise e), w')
          | (Ok (classification, severity_score), w') =>
              let page := (page ++ [st_subheader "AI Assessment Results:"])%list in
              let page :=
                (page ++
                 [ if severity_score >? 50
                   then st_error ("**Classification:** " ++ classification)
                   else st_success ("**Classification:** " ++ classification) ])%list in
              let page :=
                (page ++
                 [ st_metric "Calculated Severity Score"
                             (str severity_score ++ "/100");
                   st_info "💡 Note: In the final system, this severity score will automatically feed into the Geospatial Prioritization Module (PI) for this specific road segment." ])%list in
              ((page, Ok tt), w')
          end
      end
  end.

Definition is_alert (x : widget) : bool :=
  match x with
  | st_error _ | st_success _ => true
  | _ => false
  end.

(** ** What [strptime] reads on any [str], and the calendar-date format *)

(** The strings a regex denotes, on code points. *)
Inductive umatches (U : unicode.Database)
  : re.regex -> unicode.ustring -> unicode.groupdict -> Prop :=
| umatches_Lit c : umatches U (re.Lit c) [re.code c] []
| umatches_Digit c v :
    unicode.decimal U c = Some v -> umatches U re.Digit [c] []
| umatches_Range lo hi c :
    unicode.in_range lo hi c = true -> umatches U (re.Range lo hi) [c] []
| umatches_Seq r1 r2 s1 s2 g1 g2 :
    umatches U r1 s1 g1 -> umatches U r2 s2 g2 ->
    umatches U (re.Seq r1 r2) (s1 ++ s2)%list (g2 ++ g1)%list
| umatches_Alt_l r1 r2 s g :
    umatches U r1 s g -> umatches U (re.Alt r1 r2) s g
| umatches_Alt_r r1 r2 s g :
    umatches U r2 s g -> umatches U (re.Alt r1 r2) s g
| umatches_Group name r s g :
    umatches U r s g -> umatches U (re.Group name r) s ((name, s) :: g).

(** The value of an ASCII digit. *)
Definition digit_of (c : N) : Z := Z.of_N c - 48.

(** The three fields as [strptime] reads them, each with its number.
    The year is four decimal digits of any script.  The month is ASCII:
    [10]..[12], [01]..[09] or [1]..[9].  The day is [30]..[31], a [1] or
    [2] followed by a decimal digit of any script, [01]..[09], [1]..[9],
    or a blank followed by [1]..[9]. *)
Inductive year_read (U : unicode.Database) : unicode.ustring -> Z -> Prop :=
| year_read_dddd a b c d va vb vc vd :
    unicode.decimal U a = Some va -> unicode.decimal U b = Some vb ->
    unicode.decimal U c = Some vc -> unicode.decimal U d = Some vd ->
    year_read U [a; b; c; d] (1000 * va + 100 * vb + 10 * vc + vd).

Inductive month_read : unicode.ustring -> Z -> Prop :=
| month_read_1x c :
    unicode.in_range "0" "2" c = true ->
    month_read [49%N; c] (10 + digit_of c)
| month_read_0x c :
    unicode.in_range "1" "9" c = true -> month_read [48%N; c] (digit_of c)
| month_read_x c :
    unicode.in_range "1" "9" c = true -> month_read [c] (digit_of c).

Inductive day_read (U : unicode.Database) : unicode.ustring -> Z -> Prop :=
| day_read_3x c :
    unicode.in_range "0" "1" c = true ->
    day_read U [51%N; c] (30 + digit_of c)
| day_read_xx a b vb :
    unicode.in_range "1" "2" a = true -> unicode.decimal U b = Some vb ->
    day_read U [a; b] (10 * digit_of a + vb)
| day_read_0x c :
    unicode.in_range "1" "9" c = true -> day_read U [48%N; c] (digit_of c)
| day_read_x c :
    unicode.in_range "1" "9" c = true -> day_read U [c] (digit_of c)
| day_read_blank c :
    unicode.in_range "1" "9" c = true -> day_read U [32%N; c] (digit_of c).

(** [reads U s d]: [strptime] reads [s] as the calendar date [d]. *)
Definition reads (U : unicode.Database) (s : unicode.ustring)
    (d : datetime.date) : Prop :=
  exists Y M D,
    s = (Y ++ [45%N] ++ M ++ [45%N] ++ D)%list
    /\ year_read U Y (datetime.year d)
    /\ month_read M (datetime.month d)
    /\ day_read U D (datetime.day d)
    /\ datetime.valid d.

Definition readable (U : unicode.Database) (s : unicode.ustring) : Prop :=
  exists d, reads U s d.

(** The calendar-date format of the specification, read generously: a
    date of the calendar written with the digits [0]..[9] as year, month
    and day between dashes, the year in four digits, the month and the
    day in two digits or without their leading zero. *)
Definition four_digits (n : Z) : string :=
  String (digit_char (n / 1000)) (String (digit_char (n / 100))
  (String (digit_char (n / 10)) (String (digit_char n) ""))).

Definition two_digits (n : Z) : string :=
  String (digit_char (n / 10)) (String (digit_char n) "").

Definition calendar_date_format (s : unicode.ustring) : Prop :=
  exists d M D,
    datetime.valid d
    /\ (M = two_digits (datetime.month d) \/ M = str (datetime.month d))
    /\ (D = two_digits (datetime.day d) \/ D = str (datetime.day d))
    /\ s = unicode.codes
             (four_digits (datetime.year d) ++ "-" ++ M ++ "-" ++ D).





(** A string that holds only the dash and the digits [0]..[9]. *)
Definition digits_and_dashes (s : unicode.ustring) : Prop :=
  Forall (fun c => c = 45%N \/ (48 <= c <= 57)%N) s.

(** * Facts about dates and ordinals *)

Section DateFacts.
Import datetime.

Lemma is_leap_spec (y : Z) :
  _is_leap y = true <-> (y mod 4 = 0 /\ (y mod 100 <> 0 \/ y mod 400 = 0)).
Proof.
  unfold _is_leap.
  rewrite andb_true_iff, orb_true_iff, negb_true_iff, !Z.eqb_eq, Z.eqb_neq.
  tauto.
Qed.

(** A year has 365 days, and one more when it is a leap year. *)
Lemma days_before_year_succ (y : Z) :
  _days_before_year (y + 1)
  = _days_before_year y + 365 + (if _is_leap y then 1 else 0).
Proof.
  unfold _days_before_year.
  destruct (_is_leap y) eqn:L.
  - apply is_leap_spec in L.
    Z.to_euclidean_division_equations; lia.
  - assert (~ (y mod 4 = 0 /\ (y mod 100 <> 0 \/ y mod 400 = 0))) as N
      by (rewrite <- is_leap_spec, L; discriminate).
    Z.to_euclidean_division_equations; lia.
Qed.

Lemma days_before_year_mono (y y' : Z) :
  y <= y' -> _days_before_year y <= _days_before_year y'.
Proof.
  intros H. unfold _days_before_year.
  Z.to_euclidean_division_equations; lia.
Qed.

Lemma valid_fields (d : date) :
  valid d <->
  (1 <= year d <= 9999 /\ 1 <= month d <= 12
   /\ 1 <= day d <= _days_in_month (year d) (month d)).
Proof.
  unfold valid, _check_date_fields, MINYEAR, MAXYEAR.
  rewrite !andb_true_iff, !Z.leb_le. tauto.
Qed.

Ltac tbl_eval :=
  cbv [tbl _DAYS_IN_MONTH _DAYS_BEFORE_MONTH nth Z.to_nat Pos.to_nat
       Pos.iter_op Nat.add Z.eqb Z.ltb Z.compare Pos.compare
       Pos.compare_cont Pos.eqb andb orb negb] in *.

Ltac month_cases m :=
  let H := fresh "Hm" in
  assert (m = 1 \/ m = 2 \/ m = 3 \/ m = 4 \/ m = 5 \/ m = 6 \/ m = 7
          \/ m = 8 \/ m = 9 \/ m = 10 \/ m = 11 \/ m = 12) as H by lia;
  repeat (destruct H as [H | H]; [subst m | ]); [.. | subst m].

(** The first day of the next month comes right after the last day of
    the month. *)
Lemma days_before_month_succ (y m : Z) :
  1 <= m <= 11 ->
  _days_before_month y (m + 1) = _days_before_month y m + _days_in_month y m.
Proof.
  intros H. unfold _days_before_month, _days_in_month.
  month_cases m; try lia; destruct (_is_leap y); reflexivity.
Qed.

Lemma days_in_month_pos (y m : Z) : 1 <= m <= 12 -> 28 <= _days_in_month y m <= 31.
Proof.
  intros H. unfold _days_in_month.
  month_cases m; destruct (_is_leap y); tbl_eval; lia.
Qed.

Lemma days_before_month_mono (y m m' : Z) :
  1 <= m -> m < m' -> m' <= 12 ->
  _days_before_month y m + _days_in_month y m <= _days_before_month y m'.
Proof.
  intros H1 H2 H3. unfold _days_before_month, _days_in_month.
  month_cases m; month_cases m'; try lia;
    destruct (_is_leap y); tbl_eval; lia.
Qed.

(** A date lies within its year. *)
Lemma day_of_year_bounds (y m d : Z) :
  1 <= m <= 12 -> 1 <= d <= _days_in_month y m ->
  1 <= _days_before_month y m + d <= 365 + (if _is_leap y then 1 else 0).
Proof.
  intros Hm. unfold _days_before_month, _days_in_month.
  month_cases m; destruct (_is_leap y); tbl_eval; lia.
Qed.

(** Python compares dates as tuples; on dates this is the order of their
    ordinals. *)
Lemma toordinal_lt (a b : date) :
  valid a -> valid b -> date_ltb a b = true -> toordinal a < toordinal b.
Proof.
  intros Va Vb. apply valid_fields in Va, Vb.
  destruct Va as (Ya & Ma & Da), Vb as (Yb & Mb & Db).
  unfold date_ltb, toordinal, _ymd2ord.
  rewrite !orb_true_iff, !andb_true_iff, !orb_true_iff, !andb_true_iff,
    !Z.ltb_lt, !Z.eqb_eq.
  pose proof (day_of_year_bounds _ _ _ Ma Da) as Ba.
  pose proof (day_of_year_bounds _ _ _ Mb Db) as Bb.
  intros [Hy | (Hy & [Hmo | (Hmo & Hd)])].
  - pose proof (days_before_year_succ (year a)) as S1.
    pose proof (days_before_year_mono (year a + 1) (year b) ltac:(lia)).
    destruct (_is_leap (year a)); lia.
  - rewrite Hy in *.
    pose proof (days_before_month_mono (year b) (month a) (month b)
                  ltac:(lia) Hmo ltac:(lia)).
    lia.
  - rewrite Hy, Hmo in *. lia.
Qed.

Lemma toordinal_inj (a b : date) :
  valid a -> valid b -> toordinal a = toordinal b -> a = b.
Proof.
  intros Va Vb E.
  destruct (date_ltb a b) eqn:L1.
  { pose proof (toordinal_lt a b Va Vb L1). lia. }
  destruct (date_ltb b a) eqn:L2.
  { pose proof (toordinal_lt b a Vb Va L2). lia. }
  unfold date_ltb in L1, L2.
  rewrite !orb_false_iff, !andb_false_iff, !orb_false_iff, !andb_false_iff,
    !Z.ltb_ge, !Z.eqb_neq in L1, L2.
  destruct a as [ya ma da], b as [yb mb db]; cbn in *.
  assert (ya = yb) by lia. subst.
  assert (ma = mb) by lia. subst.
  assert (da = db) by lia. subst. reflexivity.
Qed.

(** [a < b] in Python exactly when [(a - b).days < 0]. *)
Lemma date_ltb_sub_days (a b : date) :
  valid a -> valid b -> (date_ltb a b = true <-> sub_days a b < 0).
Proof.
  intros Va Vb. unfold sub_days. split.
  - intros L. pose proof (toordinal_lt a b Va Vb L). lia.
  - intros L. destruct (date_ltb a b) eqn:L1; [reflexivity | exfalso].
    destruct (date_ltb b a) eqn:L2.
    { pose proof (toordinal_lt b a Vb Va L2). lia. }
    unfold date_ltb in L1, L2.
    rewrite !orb_false_iff, !andb_false_iff, !orb_false_iff, !andb_false_iff,
      !Z.ltb_ge, !Z.eqb_neq in L1, L2.
    assert (year a = year b) as E1 by lia.
    assert (month a = month b) as E2 by lia.
    assert (day a = day b) as E3 by lia.
    unfold toordinal in L. rewrite E1, E2, E3 in L. lia.
Qed.

Lemma month_and_day_table (leapyear : bool) :
  forallb (month_and_day_ok leapyear) (seq 0 365) = true.
Proof. destruct leapyear; vm_compute; reflexivity. Qed.

Lemma month_and_day_spec (n : Z) (leapyear : bool) :
  0 <= n < 365 ->
  let '(m, d) := month_and_day n leapyear in
  1 <= m <= 12
  /\ 1 <= d <= (if (m =? 2) && leapyear then 29 else tbl _DAYS_IN_MONTH m)
  /\ tbl _DAYS_BEFORE_MONTH m
     + (if (2 <? m) && leapyear then 1 else 0) + d = n + 1.
Proof.
  intros Hn.
  pose proof (month_and_day_table leapyear) as T.
  rewrite forallb_forall in T.
  specialize (T (Z.to_nat n)).
  assert (In (Z.to_nat n) (seq 0 365)) as I by (apply in_seq; lia).
  specialize (T I). unfold month_and_day_ok in T.
  rewrite Z2Nat.id in T by lia.
  destruct (month_and_day n leapyear) as [m d].
  rewrite !andb_true_iff, !Z.leb_le, Z.eqb_eq in T. lia.
Qed.

Lemma ord2ymd_unfold (n0 : Z) :
  _ord2ymd n0 =
  let n := n0 - 1 in
  let n400 := n / _DI400Y in
  let n := n mod _DI400Y in
  let n100 := n / _DI100Y in
  let n := n mod _DI100Y in
  let n4 := n / _DI4Y in
  let n := n mod _DI4Y in
  let n1 := n / 365 in
  let n := n mod 365 in
  let year := n400 * 400 + 1 + (n100 * 100 + n4 * 4 + n1) in
  if (n1 =? 4) || (n100 =? 4) then (year - 1, 12, 31)
  else
    let leapyear := (n1 =? 3) && (negb (n4 =? 24) || (n100 =? 3)) in
    let '(m, d) := month_and_day n leapyear in (year, m, d).
Proof.
  unfold _ord2ymd, month_and_day. cbv zeta.
  destruct ((_ =? 4) || _); [reflexivity | ].
  destruct (_ <? _); reflexivity.
Qed.

(** [_ord2ymd] inverts [_ymd2ord] and returns the fields of a date. *)
Lemma ord2ymd_spec (n : Z) :
  1 <= n ->
  let '(y, m, d) := _ord2ymd n in
  _ymd2ord y m d = n
  /\ 1 <= y /\ 1 <= m <= 12 /\ 1 <= d <= _days_in_month y m.
Proof.
  intros Hn. rewrite ord2ymd_unfold. cbv zeta.
  unfold _DI400Y, _DI100Y, _DI4Y.
  set (a := n - 1).
  set (n400 := a / 146097). set (r1 := a mod 146097).
  set (n100 := r1 / 36524). set (r2 := r1 mod 36524).
  set (n4 := r2 / 1461). set (r3 := r2 mod 1461).
  set (n1 := r3 / 365). set (r4 := r3 mod 365).
  assert (0 <= n400 /\ a = 146097 * n400 + r1 /\ 0 <= r1 < 146097) as (P0 & E1 & B1)
    by (subst n400 r1; Z.to_euclidean_division_equations; lia).
  assert (r1 = 36524 * n100 + r2 /\ 0 <= r2 < 36524 /\ 0 <= n100 <= 4) as (E2 & B2 & N100)
    by (subst n100 r2; Z.to_euclidean_division_equations; lia).
  assert (r2 = 1461 * n4 + r3 /\ 0 <= r3 < 1461 /\ 0 <= n4 <= 24) as (E3 & B3 & N4)
    by (subst n4 r3; Z.to_euclidean_division_equations; lia).
  assert (r3 = 365 * n1 + r4 /\ 0 <= r4 < 365 /\ 0 <= n1 <= 4) as (E4 & B4 & N1)
    by (subst n1 r4; Z.to_euclidean_division_equations; lia).
  clearbody n400 r1 n100 r2 n4 r3 n1 r4.
  set (year := n400 * 400 + 1 + (n100 * 100 + n4 * 4 + n1)).
  destruct ((n1 =? 4) || (n100 =? 4)) eqn:Special.
  - (* the last day of a leap year or of a 400-year cycle *)
    rewrite orb_true_iff, !Z.eqb_eq in Special.
    assert (_is_leap (year - 1) = true) as L.
    { apply is_leap_spec. subst year.
      destruct Special; Z.to_euclidean_division_equations; lia. }
    unfold _ymd2ord, _days_before_month, _days_in_month, _days_before_year.
    rewrite L. tbl_eval. subst year.
    destruct Special; (split; [ Z.to_euclidean_division_equations; lia | lia ]).
  - rewrite orb_false_iff, !Z.eqb_neq in Special.
    set (leapyear := (n1 =? 3) && (negb (n4 =? 24) || (n100 =? 3))).
    assert (_is_leap year = leapyear) as L.
    { apply eq_true_iff_eq. rewrite is_leap_spec. subst leapyear.
      rewrite andb_true_iff, orb_true_iff, negb_true_iff, !Z.eqb_eq, Z.eqb_neq.
      subst year. Z.to_euclidean_division_equations; lia. }
    pose proof (month_and_day_spec r4 leapyear B4) as M.
    destruct (month_and_day r4 leapyear) as [m d].
    unfold _ymd2ord, _days_before_month, _days_in_month, _days_before_year.
    rewrite L.
    destruct M as (M1 & M2 & M3).
    split; [ | subst year; lia ].
    rewrite <- Z.add_assoc, M3. subst year.
    Z.to_euclidean_division_equations; lia.
Qed.

Lemma toordinal_fromordinal (n : Z) :
  1 <= n -> toordinal (fromordinal n) = n.
Proof.
  intros Hn. pose proof (ord2ymd_spec n Hn) as S.
  unfold fromordinal, toordinal.
  destruct (_ord2ymd n) as [[y m] d]. cbn. apply S.
Qed.

Lemma fromordinal_valid (n : Z) :
  1 <= n <= _MAXORDINAL -> valid (fromordinal n).
Proof.
  intros Hn. pose proof (ord2ymd_spec n ltac:(lia)) as S.
  unfold fromordinal.
  destruct (_ord2ymd n) as [[y m] d] eqn:E.
  destruct S as (S1 & S2 & S3 & S4).
  apply valid_fields; cbn. repeat split; try lia.
  (* the year is at most 9999, since later years have larger ordinals *)
  destruct (Z_le_gt_dec y 9999) as [ | G]; [assumption | exfalso].
  pose proof (days_before_year_mono 10000 y ltac:(lia)) as Mo.
  pose proof (day_of_year_bounds y m d S3 S4) as B.
  unfold _ymd2ord in S1. unfold _MAXORDINAL in Hn.
  change (_days_before_year 10000) with 3652059 in Mo. lia.
Qed.

Lemma add_days_toordinal (a b : date) (k : Z) :
  add_days a k = Ok b -> toordinal b = toordinal a + k.
Proof.
  unfold add_days.
  destruct (_ && _) eqn:R; [ | discriminate ].
  rewrite andb_true_iff, Z.ltb_lt in R.
  intros [= <-]. apply toordinal_fromordinal. lia.
Qed.

Lemma add_days_valid (a b : date) (k : Z) :
  add_days a k = Ok b -> valid b.
Proof.
  unfold add_days.
  destruct (_ && _) eqn:R; [ | discriminate ].
  rewrite andb_true_iff, Z.ltb_lt, Z.leb_le in R.
  intros [= <-]. apply fromordinal_valid. lia.
Qed.

End DateFacts.

(** * The matcher *)

Section Matcher.
Import re.

Lemma substring_prefix (pre rest : string) :
  substring 0 (String.length pre) (pre ++ rest) = pre.
Proof.
  induction pre as [ | c pre IH]; cbn.
  - destruct rest; reflexivity.
  - now rewrite IH.
Qed.

Lemma append_assoc (a b c : string) : ((a ++ b) ++ c = a ++ (b ++ c))%string.
Proof. induction a as [ | x a IH]; cbn; [reflexivity | now rewrite IH]. Qed.

Lemma append_nil_r (a : string) : (a ++ "")%string = a.
Proof. induction a as [ | x a IH]; cbn; [reflexivity | now rewrite IH]. Qed.

Lemma length_append (a b : string) :
  String.length (a ++ b) = (String.length a + String.length b)%nat.
Proof. induction a as [ | x a IH]; cbn; [reflexivity | now rewrite IH]. Qed.

(** Whatever the matcher returns was returned by its continuation, at the
    end of a prefix that the regex denotes. *)
Lemma re_match_sound {A : Type} (r : regex) :
  forall (i : nat) (s : string) (caps : groupdict)
         (k : nat -> string -> groupdict -> option A) (x : A),
    re_match r i s caps k = Some x ->
    exists pre rest g,
      s = (pre ++ rest)%string /\ matches r pre g
      /\ k (i + String.length pre)%nat rest (g ++ caps)%list = Some x.
Proof.
  induction r as [c | | lo hi | r1 IH1 r2 IH2 | r1 IH1 r2 IH2 | name r IH];
    intros i s caps k x H; cbn in H.
  - destruct s as [ | c' s']; [discriminate | ].
    destruct (Ascii.eqb c c') eqn:E; [ | discriminate ].
    apply Ascii.eqb_eq in E. subst c'.
    exists (String c ""), s', []. cbn. rewrite Nat.add_1_r.
    repeat split; [constructor | assumption].
  - destruct s as [ | c' s']; [discriminate | ].
    destruct (is_digit c') eqn:E; [ | discriminate ].
    exists (String c' ""), s', []. cbn. rewrite Nat.add_1_r.
    repeat split; [now constructor | assumption].
  - destruct s as [ | c' s']; [discriminate | ].
    destruct (in_range lo hi c') eqn:E; [ | discriminate ].
    exists (String c' ""), s', []. cbn. rewrite Nat.add_1_r.
    repeat split; [now constructor | assumption].
  - apply IH1 in H. destruct H as (p1 & rest1 & g1 & -> & M1 & H).
    apply IH2 in H. destruct H as (p2 & rest2 & g2 & -> & M2 & H).
    exists (p1 ++ p2)%string, rest2, (g2 ++ g1)%list.
    rewrite append_assoc, length_append, Nat.add_assoc, <- app_assoc.
    repeat split; [now constructor | assumption].
  - destruct (re_match r1 i s caps k) as [y | ] eqn:E.
    + injection H as ->. apply IH1 in E.
      destruct E as (p & rest & g & -> & M & E).
      exists p, rest, g. repeat split; [now apply matches_Alt_l | assumption].
    + apply IH2 in H. destruct H as (p & rest & g & -> & M & H).
      exists p, rest, g. repeat split; [now apply matches_Alt_r | assumption].
  - apply IH in H. destruct H as (p & rest & g & -> & M & H).
    exists p, rest, ((name, p) :: g).
    replace (i + String.length p - i)%nat with (String.length p) in H by lia.
    rewrite substring_prefix in H.
    repeat split; [now constructor | assumption].
Qed.

End Matcher.

(** * Characters, fields and [int] *)

Section Characters.
Import re.

Lemma in_range_In (lo hi c : ascii) :
  in_range lo hi c = true -> In c (chars_between lo hi).
Proof.
  unfold in_range, code, chars_between.
  rewrite andb_true_iff, !N.leb_le. intros [L H].
  rewrite <- (ascii_nat_embedding c). apply in_map, in_seq.
  unfold nat_of_ascii. lia.
Qed.

End Characters.

(** Split a character known to lie in a literal range into its cases. *)
Ltac range_cases H :=
  apply in_range_In in H; cbv in H;
  repeat (destruct H as [H | H]; [ subst | ]); try contradiction.

Section Fields.
Import re.

Lemma in_range_is_digit (lo hi c : ascii) :
  (code "0" <= code lo)%N -> (code hi <= code "9")%N ->
  in_range lo hi c = true -> is_digit c = true.
Proof.
  unfold is_digit, in_range. rewrite !andb_true_iff, !N.leb_le. lia.
Qed.

Lemma digit_value_range (c : ascii) :
  is_digit c = true -> 0 <= digit_value c <= 9.
Proof.
  unfold is_digit, in_range, digit_value.
  rewrite andb_true_iff, !N.leb_le. cbn. lia.
Qed.

Lemma is_digit_not_space (c : ascii) : is_digit c = true -> is_space c = false.
Proof. intros H. range_cases H; reflexivity. Qed.

Lemma int_year_field (Y : string) (v : Z) : year_field Y v -> int Y = Ok v.
Proof.
  intros [a b c d Ha Hb Hc Hd]. cbn -[Z.mul Z.add].
  rewrite (is_digit_not_space a Ha), Ha, Hb, Hc, Hd.
  f_equal. lia.
Qed.

Lemma int_month_field (M : string) (v : Z) : month_field M v -> int M = Ok v.
Proof. intros [c H | c H | c H]; range_cases H; reflexivity. Qed.

Lemma int_day_field (D : string) (v : Z) : day_field D v -> int D = Ok v.
Proof.
  intros [c H | a b Ha Hb | c H | c H | c H];
    try (range_cases H; reflexivity).
  range_cases Ha; range_cases Hb; reflexivity.
Qed.

Lemma year_field_range (Y : string) (v : Z) : year_field Y v -> 0 <= v <= 9999.
Proof.
  intros [a b c d Ha Hb Hc Hd].
  apply digit_value_range in Ha, Hb, Hc, Hd. lia.
Qed.

End Fields.

(** The three groups of the pattern denote exactly the three fields. *)
Ltac invert_matches :=
  repeat match goal with
         | H : matches (re.Seq _ _) _ _ |- _ => inversion H; subst; clear H
         | H : matches (re.Alt _ _) _ _ |- _ => inversion H; subst; clear H
         | H : matches (re.Lit _) _ _ |- _ => inversion H; subst; clear H
         | H : matches re.Digit _ _ |- _ => inversion H; subst; clear H
         | H : matches (re.Range _ _) _ _ |- _ => inversion H; subst; clear H
         | H : matches (re.Group _ _) _ _ |- _ => inversion H; subst; clear H
         end.

Section Inversion.
Import re.

Lemma matches_re_Y (s : string) (g : groupdict) :
  matches _strptime.re_Y s g -> g = [("Y", s)] /\ exists v, year_field s v.
Proof.
  unfold _strptime.re_Y. intros H. invert_matches. cbn.
  split; [reflexivity | eexists; now constructor].
Qed.

Lemma matches_re_m (s : string) (g : groupdict) :
  matches _strptime.re_m s g -> g = [("m", s)] /\ exists v, month_field s v.
Proof.
  unfold _strptime.re_m. intros H. invert_matches; cbn;
    (split; [reflexivity | eexists; now constructor]).
Qed.

Lemma matches_re_d (s : string) (g : groupdict) :
  matches _strptime.re_d s g -> g = [("d", s)] /\ exists v, day_field s v.
Proof.
  unfold _strptime.re_d. intros H. invert_matches; cbn;
    (split; [reflexivity | eexists; now constructor]).
Qed.

Lemma matches_format_regex (s : string) (g : groupdict) :
  matches _strptime.format_regex s g ->
  exists Y M D vy vm vd,
    s = (Y ++ "-" ++ M ++ "-" ++ D)%string
    /\ g = [("d", D); ("m", M); ("Y", Y)]
    /\ year_field Y vy /\ month_field M vm /\ day_field D vd.
Proof.
  unfold _strptime.format_regex. intros H.
  inversion H as [ | | | r1 r2 Y s1 gY g1 HY H1 | | | ]; subst; clear H.
  inversion H1 as [ | | | r1 r2 d1 s2 gd1 g2 Hd1 H2 | | | ]; subst; clear H1.
  inversion H2 as [ | | | r1 r2 M s3 gM g3 HM H3 | | | ]; subst; clear H2.
  inversion H3 as [ | | | r1 r2 d2 D gd2 gD Hd2 HD | | | ]; subst; clear H3.
  inversion Hd1; subst. inversion Hd2; subst.
  apply matches_re_Y in HY. destruct HY as (-> & vy & FY).
  apply matches_re_m in HM. destruct HM as (-> & vm & FM).
  apply matches_re_d in HD. destruct HD as (-> & vd & FD).
  exists Y, M, D, vy, vm, vd. cbn. repeat split; assumption.
Qed.

End Inversion.

(** * The matcher on the three fields *)

Section Completeness.
Import re.
Context {A : Type}.

Lemma sub_1 (i : nat) : (S i - i = 1)%nat.
Proof. lia. Qed.

Lemma sub_2 (i : nat) : (S (S i) - i = 2)%nat.
Proof. lia. Qed.

Lemma sub_4 (i : nat) : (S (S (S (S i))) - i = 4)%nat.
Proof. lia. Qed.

Lemma substring_0_0 (s : string) : substring 0 0 s = "".
Proof. now destruct s. Qed.

Lemma orelse_None (x : option A) :
  match x with Some y => Some y | None => None end = x.
Proof. now destruct x. Qed.

Lemma re_Y_complete (Y : string) (v : Z) (rest : string) (i : nat)
    (caps : groupdict) (k : nat -> string -> groupdict -> option A) :
  year_field Y v ->
  re_match _strptime.re_Y i (Y ++ rest) caps k
  = k (4 + i)%nat rest (("Y", Y) :: caps).
Proof.
  intros [a b c d Ha Hb Hc Hd]. cbn -[Nat.sub].
  rewrite Ha, Hb, Hc, Hd, sub_4. cbn. rewrite substring_0_0. reflexivity.
Qed.

(** A month field followed by the dash is consumed whole, and no other
    alternative of the month pattern gets past the dash. *)
Lemma re_m_dash_complete (M : string) (v : Z) (rest : string) (i : nat)
    (caps : groupdict) (r : regex)
    (k : nat -> string -> groupdict -> option A) :
  month_field M v ->
  re_match (Seq _strptime.re_m (Seq (Lit "-") r)) i
           (M ++ String "-" rest) caps k
  = re_match r (S (String.length M + i)) rest (("m", M) :: caps) k.
Proof.
  intros [c H | c H | c H]; range_cases H;
    cbn -[Nat.sub]; rewrite ?sub_1, ?sub_2; cbn;
    rewrite ?substring_0_0, ?orelse_None; reflexivity.
Qed.

End Completeness.

Lemma re_d_complete (D : string) (v : Z) (i : nat) (caps : re.groupdict) :
  day_field D v ->
  re.re_match _strptime.re_d i D caps
    (fun j _ caps' => Some (re.mkMatch j caps'))
  = Some (re.mkMatch (String.length D + i) (("d", D) :: caps)).
Proof.
  intros [c H | a b Ha Hb | c H | c H | c H];
    try (range_cases H; cbn -[Nat.sub]; rewrite ?sub_1, ?sub_2; reflexivity).
  range_cases Ha; range_cases Hb;
    cbn -[Nat.sub]; rewrite ?sub_1, ?sub_2; reflexivity.
Qed.

Lemma re_match_Seq {A : Type} (r1 r2 : re.regex) (i : nat) (s : string)
    (caps : re.groupdict) (k : nat -> string -> re.groupdict -> option A) :
  re.re_match (re.Seq r1 r2) i s caps k
  = re.re_match r1 i s caps (fun j s' c' => re.re_match r2 j s' c' k).
Proof. reflexivity. Qed.

Lemma re_match_Lit {A : Type} (c : ascii) (i : nat) (s : string)
    (caps : re.groupdict) (k : nat -> string -> re.groupdict -> option A) :
  re.re_match (re.Lit c) i (String c s) caps k = k (S i) s caps.
Proof. cbn. now rewrite Ascii.eqb_refl. Qed.

Lemma year_field_length (Y : string) (v : Z) :
  year_field Y v -> String.length Y = 4%nat.
Proof. now intros []. Qed.

Lemma match_format_regex (Y M D : string) (vy vm vd : Z) :
  year_field Y vy -> month_field M vm -> day_field D vd ->
  re.match_ _strptime.format_regex (Y ++ "-" ++ M ++ "-" ++ D)
  = Some (re.mkMatch (String.length (Y ++ "-" ++ M ++ "-" ++ D))
                     [("d", D); ("m", M); ("Y", Y)]).
Proof.
  intros FY FM FD. unfold re.match_, _strptime.format_regex.
  rewrite re_match_Seq, (re_Y_complete Y vy _ _ _ _ FY).
  cbn [String.append].
  rewrite re_match_Seq, re_match_Lit.
  rewrite (re_m_dash_complete M vm _ _ _ _ _ FM).
  rewrite (re_d_complete D vd _ _ FD).
  rewrite !length_append, (year_field_length Y vy FY). cbn [String.length].
  do 2 f_equal. rewrite length_append. cbn [String.length]. lia.
Qed.

(** * [strptime_date] accepts exactly the strings of the format *)

Section Strptime.
Import _strptime.

Lemma getitem_groups (Y M D : string) :
  let g := [("d", D); ("m", M); ("Y", Y)] in
  re.getitem g "Y" = Ok Y /\ re.getitem g "m" = Ok M
  /\ re.getitem g "d" = Ok D.
Proof. repeat split. Qed.

Lemma strptime_fields (Y M D : string) (vy vm vd : Z) :
  year_field Y vy -> month_field M vm -> day_field D vd ->
  strptime_date (Y ++ "-" ++ M ++ "-" ++ D) = datetime.date_new vy vm vd.
Proof.
  intros FY FM FD. unfold strptime_date.
  rewrite (match_format_regex Y M D vy vm vd FY FM FD).
  cbn [re.m_end re.m_groups]. rewrite Nat.eqb_refl. cbn [negb].
  destruct (getitem_groups Y M D) as (-> & -> & ->).
  cbn [bind].
  rewrite (int_year_field Y vy FY), (int_month_field M vm FM),
    (int_day_field D vd FD).
  reflexivity.
Qed.

Lemma date_new_Ok (y m d : Z) (dt : datetime.date) :
  datetime.date_new y m d = Ok dt <->
  dt = datetime.mkdate y m d /\ datetime.valid dt.
Proof.
  unfold datetime.date_new, datetime.valid. split.
  - destruct (datetime._check_date_fields y m d) eqn:E; [ | discriminate ].
    intros [= <-]. cbn. now split.
  - intros [-> V]. cbn in V. now rewrite V.
Qed.

Theorem strptime_complete (s : string) (d : datetime.date) :
  denotes s d -> strptime_date s = Ok d.
Proof.
  intros (Y & M & D & -> & FY & FM & FD & V).
  rewrite (strptime_fields Y M D _ _ _ FY FM FD).
  apply date_new_Ok. split; [now destruct d | assumption].
Qed.

(** What [match_] returns on a string that it consumes to the end. *)
Lemma match_whole (s : string) (found : re.Match) :
  re.match_ format_regex s = Some found ->
  String.length s = re.m_end found ->
  exists Y M D vy vm vd,
    s = (Y ++ "-" ++ M ++ "-" ++ D)%string
    /\ year_field Y vy /\ month_field M vm /\ day_field D vd.
Proof.
  unfold re.match_. intros H L.
  apply re_match_sound in H.
  destruct H as (pre & rest & g & -> & Mt & [= <-]).
  cbn in L. rewrite length_append in L.
  assert (rest = "") as -> by (destruct rest; [reflexivity | cbn in L; lia]).
  rewrite append_nil_r.
  apply matches_format_regex in Mt.
  destruct Mt as (Y & M & D & vy & vm & vd & -> & _ & FY & FM & FD).
  now exists Y, M, D, vy, vm, vd.
Qed.

Theorem strptime_sound (s : string) (d : datetime.date) :
  strptime_date s = Ok d -> denotes s d.
Proof.
  intros H.
  assert (exists Y M D vy vm vd,
             s = (Y ++ "-" ++ M ++ "-" ++ D)%string
             /\ year_field Y vy /\ month_field M vm /\ day_field D vd)
    as (Y & M & D & vy & vm & vd & -> & FY & FM & FD).
  { unfold strptime_date in H.
    destruct (re.match_ format_regex s) as [found | ] eqn:E; [ | discriminate ].
    destruct (Nat.eqb (String.length s) (re.m_end found)) eqn:L;
      [ | discriminate ].
    apply Nat.eqb_eq in L. eapply match_whole; eassumption. }
  rewrite (strptime_fields Y M D _ _ _ FY FM FD) in H.
  apply date_new_Ok in H. destruct H as [-> V].
  exists Y, M, D. cbn. repeat split; assumption.
Qed.

(** The only exception [strptime_date] raises is [ValueError]. *)
Theorem strptime_raises (s : string) (e : exn) :
  strptime_date s = Raise e -> e = ValueError.
Proof.
  intros H.
  destruct (re.match_ format_regex s) as [found | ] eqn:E.
  2:{ unfold strptime_date in H. rewrite E in H. congruence. }
  destruct (Nat.eqb (String.length s) (re.m_end found)) eqn:L.
  2:{ unfold strptime_date in H. rewrite E, L in H. cbn in H. congruence. }
  apply Nat.eqb_eq in L.
  destruct (match_whole s found E L)
    as (Y & M & D & vy & vm & vd & -> & FY & FM & FD).
  rewrite (strptime_fields Y M D _ _ _ FY FM FD) in H.
  unfold datetime.date_new in H.
  destruct (datetime._check_date_fields vy vm vd); congruence.
Qed.

End Strptime.

(** * [isoformat] writes a string of the format *)

Section Isoformat.

Lemma digit_char_spec (n : Z) :
  re.is_digit (digit_char n) = true
  /\ digit_value (digit_char n) = n mod 10.
Proof.
  unfold digit_char.
  assert (0 <= n mod 10 < 10) as B by (apply Z.mod_pos_bound; lia).
  set (k := n mod 10) in *. clearbody k.
  assert (k = 0 \/ k = 1 \/ k = 2 \/ k = 3 \/ k = 4 \/ k = 5 \/ k = 6
          \/ k = 7 \/ k = 8 \/ k = 9) as C by lia.
  repeat (destruct C as [C | C]; [ subst k; now vm_compute | ]).
  subst k; now vm_compute.
Qed.

Lemma isoformat_year (y : Z) :
  0 <= y <= 9999 ->
  year_field (String (digit_char (y / 1000)) (String (digit_char (y / 100))
             (String (digit_char (y / 10)) (String (digit_char y) "")))) y.
Proof.
  intros B.
  destruct (digit_char_spec (y / 1000)) as [D3 V3].
  destruct (digit_char_spec (y / 100)) as [D2 V2].
  destruct (digit_char_spec (y / 10)) as [D1 V1].
  destruct (digit_char_spec y) as [D0 V0].
  replace y with (1000 * digit_value (digit_char (y / 1000))
                  + 100 * digit_value (digit_char (y / 100))
                  + 10 * digit_value (digit_char (y / 10))
                  + digit_value (digit_char y)) at 5.
  - now constructor.
  - rewrite V3, V2, V1, V0. Z.to_euclidean_division_equations; lia.
Qed.

Lemma isoformat_month (m : Z) :
  1 <= m <= 12 ->
  month_field (String (digit_char (m / 10)) (String (digit_char m) "")) m.
Proof.
  intros B.
  assert (m = 1 \/ m = 2 \/ m = 3 \/ m = 4 \/ m = 5 \/ m = 6 \/ m = 7
          \/ m = 8 \/ m = 9 \/ m = 10 \/ m = 11 \/ m = 12) as C by lia.
  repeat (destruct C as [C | C]; [ subst m | ]); [ .. | subst m ];
    match goal with
    | |- month_field (String _ (String ?c _)) _ =>
        first [ exact (month_0x c eq_refl) | exact (month_1x c eq_refl) ]
    end.
Qed.

Lemma isoformat_day (d : Z) :
  1 <= d <= 31 ->
  day_field (String (digit_char (d / 10)) (String (digit_char d) "")) d.
Proof.
  intros B.
  assert (In d (map Z.of_nat (seq 1 31))) as C.
  { replace d with (Z.of_nat (Z.to_nat d)) by lia.
    apply in_map, in_seq. lia. }
  cbv in C.
  repeat (destruct C as [C | C]; [ subst d | ]); try contradiction;
    match goal with
    | |- day_field (String ?a (String ?c _)) _ =>
        first [ exact (day_0x c eq_refl) | exact (day_xx a c eq_refl eq_refl)
              | exact (day_3x c eq_refl) ]
    end.
Qed.

Theorem isoformat_denotes (d : datetime.date) :
  datetime.valid d -> denotes (isoformat d) d.
Proof.
  intros V. pose proof V as F. apply valid_fields in F.
  destruct F as (By & Bm & Bd).
  pose proof (days_in_month_pos (datetime.year d) _ Bm).
  exists (String (digit_char (datetime.year d / 1000))
         (String (digit_char (datetime.year d / 100))
         (String (digit_char (datetime.year d / 10))
         (String (digit_char (datetime.year d)) "")))),
         (String (digit_char (datetime.month d / 10))
         (String (digit_char (datetime.month d)) "")),
         (String (digit_char (datetime.day d / 10))
         (String (digit_char (datetime.day d)) "")).
  repeat split.
  - apply isoformat_year. lia.
  - now apply isoformat_month.
  - apply isoformat_day. lia.
  - exact V.
Qed.

Corollary strptime_isoformat (d : datetime.date) :
  datetime.valid d -> _strptime.strptime_date (isoformat d) = Ok d.
Proof. intros V. now apply strptime_complete, isoformat_denotes. Qed.

End Isoformat.

(** * Frames *)

Section FrameFacts.
Import pandas.












Lemma mapM_raises {A B : Type} (f : A -> result B) (l : list A) (a : A)
    (e : exn) :
  In a l -> f a = Raise e -> exists e', mapM f l = Raise e'.
Proof.
  induction l as [ | x l IH]; cbn; [tauto | ].
  intros [-> | I] H.
  - rewrite H. now exists e.
  - destruct (f x) as [b | e0]; cbn; [ | now exists e0 ].
    destruct (IH I H) as [e' ->]. now exists e'.
Qed.

End FrameFacts.

(** One record whose classification raises makes the classification of
    the frame raise: no frame, and so no row with a made-up status, is
    produced. *)
Lemma classify_frame_raises (ev : datetime.date) (df : pandas.DataFrame)
    (r : pandas.Series) (e : exn) :
  In r (pandas.rows df) -> classify_row ev r = Raise e ->
  exists e', classify_frame ev df = Raise e'.
Proof.
  intros I H. unfold classify_frame, pandas.apply_axis1.
  destruct (Nat.eqb (pandas.nrows df) 0) eqn:Z.
  - apply Nat.eqb_eq in Z. unfold pandas.rows in I. rewrite Z in I.
    destruct I.
  - destruct (mapM_raises _ _ _ _ I H) as [e' ->]. now exists e'.
Qed.

(** When the classification of a frame with rows succeeds, its status and
    colour columns hold the classifier's results row by row. *)
Lemma classify_frame_columns (ev : datetime.date) (df df' : pandas.DataFrame) :
  pandas.nrows df <> 0%nat ->
  classify_frame ev df = Ok df' ->
  exists rs,
    pandas.mapM (classify_row ev) (pandas.rows df) = Ok rs
    /\ df' = pandas.set_column "color" (map snd rs)
               (pandas.set_column "status" (map fst rs) df).
Proof.
  intros NZ. unfold classify_frame, pandas.apply_axis1.
  apply Nat.eqb_neq in NZ. rewrite NZ.
  destruct (pandas.mapM (classify_row ev) (pandas.rows df)) as [rs | e];
    [ | discriminate ].
  cbn. intros [= <-]. now exists rs.
Qed.

(** * The presenter *)


Lemma sample_classified_spec :
  (df <- pandas.DataFrame_new data ;;
   classify_frame (datetime.mkdate 2026 1 1) df) = Ok sample_classified.
Proof. reflexivity. Qed.


(** * The classifier's decision rule *)

Section Classifier.
Import datetime _strptime.

Variables (target_date_str : string) (target_date : date).
Hypothesis parsed : strptime_date target_date_str = Ok target_date.

Lemma classify_parsed (progress : Z) (evaluation_date : date) :
  determine_project_status target_date_str progress evaluation_date =
  let days_remaining := sub_days target_date evaluation_date in
  if progress >=? 100 then Ok ("Completed", [0; 255; 0; 160])
  else if days_remaining <? 0 then Ok ("Delayed", [255; 0; 0; 160])
  else if (days_remaining <=? 30) && (progress <? 80)
       then Ok ("At Risk", [255; 165; 0; 160])
       else Ok ("On Track", [0; 150; 255; 160]).
Proof. unfold determine_project_status. now rewrite parsed. Qed.

Lemma classify_total (progress : Z) (evaluation_date : date) :
  exists status color,
    determine_project_status target_date_str progress evaluation_date
    = Ok (status, color).
Proof.
  rewrite classify_parsed. cbv zeta.
  destruct (progress >=? 100); [now eauto | ].
  destruct (_ <? 0); [now eauto | ].
  destruct (_ && _); now eauto.
Qed.

End Classifier.

Ltac decide_tests :=
  repeat match goal with
         | |- context [?a >=? ?b] =>
             destruct (Z.geb_spec a b); try lia
         | |- context [?a <? ?b] =>
             destruct (Z.ltb_spec a b); try lia
         | |- context [?a <=? ?b] =>
             destruct (Z.leb_spec a b); try lia
         end.

(** C1. Progress of 100 or more classifies as Completed, whatever the
    target date and the evaluation date are, a target date in the past
    included. *)
Theorem completed_regardless_of_dates
    (target_date_str : string) (target_date : datetime.date)
    (progress : Z) (evaluation_date : datetime.date) :
  _strptime.strptime_date target_date_str = Ok target_date ->
  progress >= 100 ->
  determine_project_status target_date_str progress evaluation_date
  = Ok ("Completed", [0; 255; 0; 160]).
Proof.
  intros P H. rewrite (classify_parsed _ _ P). cbv zeta.
  decide_tests. reflexivity.
Qed.

(** The boundary scenario of C1: the target date is the day before the
    evaluation date and progress is 100. *)
Lemma completed_regardless_of_dates_witness :
  datetime.sub_days (datetime.mkdate 2025 12 1) (datetime.mkdate 2025 12 2)
  = -1
  /\ determine_project_status "2025-12-01" 100 (datetime.mkdate 2025 12 2)
     = Ok ("Completed", [0; 255; 0; 160]).
Proof.
  split; [reflexivity | ].
  apply (completed_regardless_of_dates "2025-12-01"
           (datetime.mkdate 2025 12 1) 100 (datetime.mkdate 2025 12 2)).
  - reflexivity.
  - lia.
Defined.

(** C2. Progress below 100 with the target date strictly before the
    evaluation date (a negative difference in days) classifies as
    Delayed. *)
Theorem delayed_when_target_passed
    (target_date_str : string) (target_date : datetime.date)
    (progress : Z) (evaluation_date : datetime.date) :
  _strptime.strptime_date target_date_str = Ok target_date ->
  progress < 100 ->
  datetime.sub_days target_date evaluation_date < 0 ->
  determine_project_status target_date_str progress evaluation_date
  = Ok ("Delayed", [255; 0; 0; 160]).
Proof.
  intros P H D. rewrite (classify_parsed _ _ P). cbv zeta.
  decide_tests. reflexivity.
Qed.

Lemma delayed_when_target_passed_witness :
  determine_project_status "2025-12-01" 99 (datetime.mkdate 2025 12 2)
  = Ok ("Delayed", [255; 0; 0; 160]).
Proof.
  apply (delayed_when_target_passed "2025-12-01"
           (datetime.mkdate 2025 12 1) 99 (datetime.mkdate 2025 12 2)).
  - reflexivity.
  - lia.
  - vm_compute. reflexivity.
Defined.

(** C3. Progress below 80 (hence below 100) with the target date 0 to 30
    days, bounds included, after the evaluation date classifies as
    At Risk. *)
Theorem at_risk_within_thirty_days
    (target_date_str : string) (target_date : datetime.date)
    (progress : Z) (evaluation_date : datetime.date) :
  _strptime.strptime_date target_date_str = Ok target_date ->
  progress < 100 ->
  0 <= datetime.sub_days target_date evaluation_date <= 30 ->
  progress < 80 ->
  determine_project_status target_date_str progress evaluation_date
  = Ok ("At Risk", [255; 165; 0; 160]).
Proof.
  intros P H D H80. rewrite (classify_parsed _ _ P). cbv zeta.
  decide_tests. reflexivity.
Qed.

Lemma at_risk_within_thirty_days_witness :
  datetime.sub_days (datetime.mkdate 2026 1 31) (datetime.mkdate 2026 1 1)
  = 30
  /\ determine_project_status "2026-01-31" 79 (datetime.mkdate 2026 1 1)
     = Ok ("At Risk", [255; 165; 0; 160]).
Proof.
  split; [reflexivity | ].
  apply (at_risk_within_thirty_days "2026-01-31"
           (datetime.mkdate 2026 1 31) 79 (datetime.mkdate 2026 1 1)).
  - reflexivity.
  - lia.
  - vm_compute. split; discriminate.
  - lia.
Defined.

(** C4. Progress below 100 that is matched neither by the Delayed rule
    nor by the At Risk rule classifies as On Track; in particular 30 days
    remaining at progress 80 is On Track, the progress bound of the
    At Risk rule being strict. *)
Theorem on_track_otherwise
    (target_date_str : string) (target_date : datetime.date)
    (evaluation_date : datetime.date) :
  _strptime.strptime_date target_date_str = Ok target_date ->
  (forall progress : Z,
      progress < 100 ->
      ~ datetime.sub_days target_date evaluation_date < 0 ->
      ~ (datetime.sub_days target_date evaluation_date <= 30
         /\ progress < 80) ->
      determine_project_status target_date_str progress evaluation_date
      = Ok ("On Track", [0; 150; 255; 160]))
  /\ (datetime.sub_days target_date evaluation_date = 30 ->
      determine_project_status target_date_str 80 evaluation_date
      = Ok ("On Track", [0; 150; 255; 160])).
Proof.
  intros P. split.
  - intros progress H ND NR. rewrite (classify_parsed _ _ P). cbv zeta.
    destruct (Z.geb_spec progress 100); [lia | ].
    destruct (Z.ltb_spec (datetime.sub_days target_date evaluation_date) 0);
      [lia | ].
    destruct (Z.leb_spec (datetime.sub_days target_date evaluation_date) 30),
      (Z.ltb_spec progress 80); cbn; solve [reflexivity | lia].
  - intros D. rewrite (classify_parsed _ _ P). cbv zeta. rewrite D.
    reflexivity.
Qed.

Lemma on_track_otherwise_witness :
  datetime.sub_days (datetime.mkdate 2026 1 31) (datetime.mkdate 2026 1 1)
  = 30
  /\ determine_project_status "2026-01-31" 80 (datetime.mkdate 2026 1 1)
     = Ok ("On Track", [0; 150; 255; 160]).
Proof.
  split; [reflexivity | ].
  apply (on_track_otherwise "2026-01-31" (datetime.mkdate 2026 1 31)
           (datetime.mkdate 2026 1 1)); reflexivity.
Defined.

(** * Colours *)

(** The classifier returns one of four (status, colour) pairs. *)
Lemma classify_pairs (target_date_str : string) (progress : Z)
    (evaluation_date : datetime.date) (status : string) (color : list Z) :
  determine_project_status target_date_str progress evaluation_date
  = Ok (status, color) ->
  In (status, color)
     [ ("Completed", [0; 255; 0; 160]); ("Delayed", [255; 0; 0; 160]);
       ("At Risk", [255; 165; 0; 160]); ("On Track", [0; 150; 255; 160]) ].
Proof.
  unfold determine_project_status.
  destruct (_strptime.strptime_date target_date_str) as [td | e];
    [ cbn [bind] | discriminate ].
  destruct (progress >=? 100); [intros [= <- <-]; cbn; tauto | ].
  destruct (_ <? 0); [intros [= <- <-]; cbn; tauto | ].
  destruct (_ && _); intros [= <- <-]; cbn; tauto.
Qed.

(** C5, as the code has it.  The colour is a function of the status:
    green for Completed, red for Delayed, orange for At Risk and blue
    for On Track, each with alpha 160 of 255, so two calls that return
    the same status return the same colour. *)
Theorem color_determined_by_status
    (target_date_str : string) (progress : Z)
    (evaluation_date : datetime.date) (status : string) (color : list Z) :
  determine_project_status target_date_str progress evaluation_date
  = Ok (status, color) ->
  ((status = "Completed" /\ color = [0; 255; 0; 160])
   \/ (status = "Delayed" /\ color = [255; 0; 0; 160])
   \/ (status = "At Risk" /\ color = [255; 165; 0; 160])
   \/ (status = "On Track" /\ color = [0; 150; 255; 160]))
  /\ alpha color = 160
  /\ (forall s' p' ev' color',
         determine_project_status s' p' ev' = Ok (status, color') ->
         color' = color).
Proof.
  intros H. apply classify_pairs in H. cbn in H.
  assert (forall s' p' ev' st' c',
             determine_project_status s' p' ev' = Ok (st', c') ->
             st' = status -> c' = color) as Same.
  { intros s' p' ev' st' c' H' E. apply classify_pairs in H'. cbn in H'.
    destruct H as [[= <- <-] | [[= <- <-] | [[= <- <-] | [[= <- <-] | []]]]];
      destruct H' as [[= <- <-] | [[= <- <-] | [[= <- <-] | [[= <- <-] | []]]]];
      solve [reflexivity | discriminate E]. }
  split; [ | split ].
  - destruct H as [[= <- <-] | [[= <- <-] | [[= <- <-] | [[= <- <-] | []]]]];
      tauto.
  - destruct H as [[= <- <-] | [[= <- <-] | [[= <- <-] | [[= <- <-] | []]]]];
      reflexivity.
  - intros s' p' ev' color' H'. now apply (Same s' p' ev' status color' H').
Qed.

Lemma color_determined_by_status_witness :
  alpha [0; 150; 255; 160] = 160.
Proof.
  apply (color_determined_by_status "2026-03-15" 60
           (datetime.mkdate 2026 1 1) "On Track" [0; 150; 255; 160]).
  reflexivity.
Defined.

(** C5 as stated fails: the colours are not fully opaque.  The first
    sample record, evaluated on 2026-01-01, gets alpha 160. *)
Lemma color_not_fully_opaque :
  exists status color,
    determine_project_status "2026-03-15" 60 (datetime.mkdate 2026 1 1)
    = Ok (status, color)
    /\ ~ fully_opaque color.
Proof.
  exists "On Track", [0; 150; 255; 160].
  split; [reflexivity | ]. unfold fully_opaque, alpha. cbn. discriminate.
Qed.

(** * Purity *)

(** The classifier as a function of its arguments, under a name that
    stays apart from its namesake in a state. *)
Local Abbreviation classify_of_arguments := determine_project_status
  (only parsing).

Section HiddenState.
Import strptime_state.
Variable other : locale_time -> string -> result re.regex.









End HiddenState.



(** The tab reads the world once, for the date of the widget, and hands
    that date to the classification as an argument. *)
Lemma run_tab_map_spec (st : widgets) (w : World) :
  run_tab_map st w
  = (tab_map st (match date_input_value w with
                 | Some d => d
                 | None => clock_today w
                 end) data, w).
Proof. reflexivity. Qed.

(** * Dates enter through their difference only *)

(** C10. Moving the target date and the evaluation date by the same
    number of days leaves the result unchanged: [s'] is any string for
    the moved target date (its [isoformat], say) and [ev'] the moved
    evaluation date. *)
Theorem classify_translation_invariant
    (s s' : string) (td td' ev ev' : datetime.date) (progress k : Z) :
  _strptime.strptime_date s = Ok td ->
  datetime.add_days td k = Ok td' ->
  _strptime.strptime_date s' = Ok td' ->
  datetime.add_days ev k = Ok ev' ->
  determine_project_status s' progress ev'
  = determine_project_status s progress ev.
Proof.
  intros P T P' E.
  rewrite (classify_parsed _ _ P), (classify_parsed _ _ P').
  apply add_days_toordinal in T, E.
  unfold datetime.sub_days. rewrite T, E.
  replace (datetime.toordinal td + k - (datetime.toordinal ev + k))
    with (datetime.toordinal td - datetime.toordinal ev) by lia.
  reflexivity.
Qed.

Lemma classify_translation_invariant_witness :
  determine_project_status "2027-01-31" 79 (datetime.mkdate 2027 1 1)
  = determine_project_status "2026-01-31" 79 (datetime.mkdate 2026 1 1).
Proof.
  apply (classify_translation_invariant "2026-01-31" "2027-01-31"
           (datetime.mkdate 2026 1 31) (datetime.mkdate 2027 1 31)
           (datetime.mkdate 2026 1 1) (datetime.mkdate 2027 1 1) 79 365);
    reflexivity.
Defined.

(** The moved target date always has a string: its [isoformat]. *)
Lemma moved_target_has_string (td td' : datetime.date) (k : Z) :
  datetime.add_days td k = Ok td' ->
  _strptime.strptime_date (isoformat td') = Ok td'.
Proof. intros H. apply strptime_isoformat. now apply add_days_valid in H. Qed.

(** * The sample records *)

Lemma before_sample_targets (ev : datetime.date) :
  datetime.valid ev ->
  datetime.date_ltb ev sample_target_3 = true ->
  datetime.sub_days sample_target_1 ev > 104
  /\ datetime.sub_days sample_target_2 ev > 71
  /\ datetime.sub_days sample_target_3 ev > 0.
Proof.
  intros V L.
  apply toordinal_lt in L; [ | assumption | reflexivity ].
  unfold datetime.sub_days.
  change (datetime.toordinal sample_target_1) with 739690.
  change (datetime.toordinal sample_target_2) with 739657.
  change (datetime.toordinal sample_target_3) with 739586 in *.
  lia.
Qed.

(** C9. On an evaluation date before the three sample target dates the
    third record is Completed and the first two fall under rules 3 and 4,
    so they are At Risk or On Track, never Completed and never Delayed
    (with these dates rule 4 applies: both are On Track).  The frame of
    the script gets these statuses, row by row. *)
Theorem sample_records_classification (ev : datetime.date) :
  datetime.valid ev ->
  datetime.date_ltb ev sample_target_1 = true ->
  datetime.date_ltb ev sample_target_2 = true ->
  datetime.date_ltb ev sample_target_3 = true ->
  let r1 := rule_3_4 (datetime.sub_days sample_target_1 ev) 60 in
  let r2 := rule_3_4 (datetime.sub_days sample_target_2 ev) 40 in
  determine_project_status "2026-03-15" 60 ev = Ok r1
  /\ determine_project_status "2026-02-10" 40 ev = Ok r2
  /\ determine_project_status "2025-12-01" 100 ev
     = Ok ("Completed", [0; 255; 0; 160])
  /\ r1 = ("On Track", [0; 150; 255; 160])
  /\ r2 = ("On Track", [0; 150; 255; 160])
  /\ pandas.mapM (classify_row ev) (pandas.rows data)
     = Ok [ (pandas.VStr "On Track", pandas.VList [0; 150; 255; 160]);
            (pandas.VStr "On Track", pandas.VList [0; 150; 255; 160]);
            (pandas.VStr "Completed", pandas.VList [0; 255; 0; 160]) ].
Proof.
  intros V _ _ L3. cbv zeta.
  destruct (before_sample_targets ev V L3) as (D1 & D2 & D3).
  assert (rule_3_4 (datetime.sub_days sample_target_1 ev) 60
          = ("On Track", [0; 150; 255; 160])) as R1.
  { unfold rule_3_4.
    destruct (Z.leb_spec (datetime.sub_days sample_target_1 ev) 30);
      [lia | reflexivity]. }
  assert (rule_3_4 (datetime.sub_days sample_target_2 ev) 40
          = ("On Track", [0; 150; 255; 160])) as R2.
  { unfold rule_3_4.
    destruct (Z.leb_spec (datetime.sub_days sample_target_2 ev) 30);
      [lia | reflexivity]. }
  assert (determine_project_status "2026-03-15" 60 ev
          = Ok (rule_3_4 (datetime.sub_days sample_target_1 ev) 60)) as C1.
  { rewrite (classify_parsed "2026-03-15" sample_target_1 eq_refl).
    cbv zeta. unfold rule_3_4.
    destruct (Z.ltb_spec (datetime.sub_days sample_target_1 ev) 0); [lia | ].
    cbn [Z.geb Z.compare Pos.compare Pos.compare_cont].
    now destruct (_ && _). }
  assert (determine_project_status "2026-02-10" 40 ev
          = Ok (rule_3_4 (datetime.sub_days sample_target_2 ev) 40)) as C2.
  { rewrite (classify_parsed "2026-02-10" sample_target_2 eq_refl).
    cbv zeta. unfold rule_3_4.
    destruct (Z.ltb_spec (datetime.sub_days sample_target_2 ev) 0); [lia | ].
    cbn [Z.geb Z.compare Pos.compare Pos.compare_cont].
    now destruct (_ && _). }
  assert (determine_project_status "2025-12-01" 100 ev
          = Ok ("Completed", [0; 255; 0; 160])) as C3.
  { now rewrite (classify_parsed "2025-12-01" sample_target_3 eq_refl). }
  repeat split; try assumption.
  let r := eval cbv in (pandas.rows data) in
  change (pandas.rows data) with r.
  cbn -[determine_project_status].
  unfold classify_row. cbn -[determine_project_status].
  rewrite C1, C2, C3, R1, R2. reflexivity.
Qed.

Lemma sample_records_classification_witness :
  determine_project_status "2025-12-01" 100 (datetime.mkdate 2025 11 3)
  = Ok ("Completed", [0; 255; 0; 160]).
Proof.
  apply (sample_records_classification (datetime.mkdate 2025 11 3));
    reflexivity.
Defined.

(** * More about the classifier *)

(** X1. Each status is returned under its rule only: Completed exactly
    at progress 100 or more; Delayed exactly below 100 with the target
    date passed; At Risk exactly below 80 with 0 to 30 days left;
    On Track exactly in the remaining cases below 100. *)
Theorem status_exactly_by_rule
    (target_date_str : string) (target_date : datetime.date)
    (progress : Z) (evaluation_date : datetime.date)
    (status : string) (color : list Z) :
  _strptime.strptime_date target_date_str = Ok target_date ->
  determine_project_status target_date_str progress evaluation_date
  = Ok (status, color) ->
  let days := datetime.sub_days target_date evaluation_date in
  (status = "Completed" <-> progress >= 100)
  /\ (status = "Delayed" <-> progress < 100 /\ days < 0)
  /\ (status = "At Risk" <-> progress < 80 /\ 0 <= days <= 30)
  /\ (status = "On Track" <->
      progress < 100 /\ 0 <= days /\ (30 < days \/ 80 <= progress)).
Proof.
  intros P. rewrite (classify_parsed _ _ P). cbv zeta.
  destruct (Z.geb_spec progress 100);
    [ | destruct (Z.ltb_spec
                    (datetime.sub_days target_date evaluation_date) 0);
        [ | destruct (Z.leb_spec
                        (datetime.sub_days target_date evaluation_date) 30),
              (Z.ltb_spec progress 80) ] ];
    cbn [andb]; intros [= <- <-];
    repeat split; intros; solve [ reflexivity | discriminate | lia ].
Qed.

Lemma status_exactly_by_rule_witness :
  "At Risk" = "At Risk" <->
  79 < 80
  /\ 0 <= datetime.sub_days (datetime.mkdate 2026 1 31)
                            (datetime.mkdate 2026 1 1) <= 30.
Proof.
  apply (status_exactly_by_rule "2026-01-31" (datetime.mkdate 2026 1 31) 79
           (datetime.mkdate 2026 1 1) "At Risk" [255; 165; 0; 160]);
    reflexivity.
Defined.

(** The severity of the returned status, from the numbers compared. *)
Lemma classify_severity
    (target_date_str : string) (target_date : datetime.date)
    (progress : Z) (evaluation_date : datetime.date)
    (status : string) (color : list Z) :
  _strptime.strptime_date target_date_str = Ok target_date ->
  determine_project_status target_date_str progress evaluation_date
  = Ok (status, color) ->
  severity status
  = if progress >=? 100 then 0%nat
    else if datetime.sub_days target_date evaluation_date <? 0 then 3%nat
    else if (datetime.sub_days target_date evaluation_date <=? 30)
            && (progress <? 80) then 2%nat
    else 1%nat.
Proof.
  intros P. rewrite (classify_parsed _ _ P). cbv zeta.
  destruct (progress >=? 100); [now intros [= <- <-] | ].
  destruct (_ <? 0); [now intros [= <- <-] | ].
  destruct (_ && _); now intros [= <- <-].
Qed.

Ltac split_tests :=
  repeat match goal with
         | |- context [?a >=? ?b] => destruct (Z.geb_spec a b)
         | |- context [?a <? ?b] => destruct (Z.ltb_spec a b)
         | |- context [?a <=? ?b] => destruct (Z.leb_spec a b)
         end;
  cbn [andb]; try lia.

(** X2. With the progress held fixed, a later evaluation date never gives
    a better status: the status only moves from On Track towards At Risk
    and Delayed, and Completed stays Completed. *)
Theorem status_never_improves_with_time
    (target_date_str : string) (target_date : datetime.date) (progress : Z)
    (ev ev' : datetime.date) (st st' : string) (c c' : list Z) :
  _strptime.strptime_date target_date_str = Ok target_date ->
  datetime.valid ev -> datetime.valid ev' ->
  datetime.date_ltb ev ev' = true ->
  determine_project_status target_date_str progress ev = Ok (st, c) ->
  determine_project_status target_date_str progress ev' = Ok (st', c') ->
  (severity st <= severity st')%nat.
Proof.
  intros P V V' L H H'.
  rewrite (classify_severity _ _ _ _ _ _ P H),
    (classify_severity _ _ _ _ _ _ P H').
  pose proof (toordinal_lt ev ev' V V' L) as O.
  unfold datetime.sub_days. split_tests.
Qed.

Lemma status_never_improves_with_time_witness :
  (severity "On Track" <= severity "Delayed")%nat.
Proof.
  apply (status_never_improves_with_time "2026-03-15"
           (datetime.mkdate 2026 3 15) 60
           (datetime.mkdate 2026 1 1) (datetime.mkdate 2026 3 16)
           "On Track" "Delayed" [0; 150; 255; 160] [255; 0; 0; 160]);
    reflexivity.
Defined.

(** X3. With both dates held fixed, more progress never gives a worse
    status. *)
Theorem status_never_worsens_with_progress
    (target_date_str : string) (target_date : datetime.date)
    (progress progress' : Z) (ev : datetime.date)
    (st st' : string) (c c' : list Z) :
  _strptime.strptime_date target_date_str = Ok target_date ->
  progress <= progress' ->
  determine_project_status target_date_str progress ev = Ok (st, c) ->
  determine_project_status target_date_str progress' ev = Ok (st', c') ->
  (severity st' <= severity st)%nat.
Proof.
  intros P L H H'.
  rewrite (classify_severity _ _ _ _ _ _ P H),
    (classify_severity _ _ _ _ _ _ P H').
  split_tests.
Qed.

Lemma status_never_worsens_with_progress_witness :
  (severity "On Track" <= severity "At Risk")%nat.
Proof.
  apply (status_never_worsens_with_progress "2026-01-31"
           (datetime.mkdate 2026 1 31) 79 80 (datetime.mkdate 2026 1 1)
           "At Risk" "On Track" [255; 165; 0; 160] [0; 150; 255; 160]);
    first [ reflexivity | lia ].
Defined.

(** X4. With the progress and the evaluation date held fixed, a later
    target date never gives a worse status. *)
Theorem status_never_worsens_with_later_target
    (s s' : string) (td td' : datetime.date) (progress : Z)
    (ev : datetime.date) (st st' : string) (c c' : list Z) :
  _strptime.strptime_date s = Ok td ->
  _strptime.strptime_date s' = Ok td' ->
  datetime.date_ltb td td' = true ->
  determine_project_status s progress ev = Ok (st, c) ->
  determine_project_status s' progress ev = Ok (st', c') ->
  (severity st' <= severity st)%nat.
Proof.
  intros P P' L H H'.
  rewrite (classify_severity _ _ _ _ _ _ P H),
    (classify_severity _ _ _ _ _ _ P' H').
  assert (datetime.valid td) as V
      by (apply strptime_sound in P; destruct P as (? & ? & ? & ? & ? & ? & ? & V); exact V).
  assert (datetime.valid td') as V'
      by (apply strptime_sound in P'; destruct P' as (? & ? & ? & ? & ? & ? & ? & V'); exact V').
  pose proof (toordinal_lt td td' V V' L) as O.
  unfold datetime.sub_days. split_tests.
Qed.

Lemma status_never_worsens_with_later_target_witness :
  (severity "On Track" <= severity "At Risk")%nat.
Proof.
  apply (status_never_worsens_with_later_target "2026-01-31" "2026-2-1"
           (datetime.mkdate 2026 1 31) (datetime.mkdate 2026 2 1) 79
           (datetime.mkdate 2026 1 1)
           "At Risk" "On Track" [255; 165; 0; 160] [0; 150; 255; 160]);
    reflexivity.
Defined.

(** * Dates as the classifier reads them *)

(** X5. A target date written in ISO form that lies [k] calendar days
    after the evaluation date is classified by [k] and the progress
    alone, across month ends and leap years. *)
Theorem classify_by_day_offset
    (ev td : datetime.date) (k progress : Z) :
  datetime.add_days ev k = Ok td ->
  determine_project_status (isoformat td) progress ev
  = if progress >=? 100 then Ok ("Completed", [0; 255; 0; 160])
    else if k <? 0 then Ok ("Delayed", [255; 0; 0; 160])
    else if (k <=? 30) && (progress <? 80)
         then Ok ("At Risk", [255; 165; 0; 160])
         else Ok ("On Track", [0; 150; 255; 160]).
Proof.
  intros A.
  pose proof (strptime_isoformat td (add_days_valid _ _ _ A)) as P.
  rewrite (classify_parsed _ _ P). cbv zeta.
  unfold datetime.sub_days. rewrite (add_days_toordinal _ _ _ A).
  replace (datetime.toordinal ev + k - datetime.toordinal ev) with k by lia.
  reflexivity.
Qed.

Lemma classify_by_day_offset_witness :
  determine_project_status "2024-03-01" 79 (datetime.mkdate 2024 1 31)
  = Ok ("At Risk", [255; 165; 0; 160]).
Proof.
  apply (classify_by_day_offset (datetime.mkdate 2024 1 31)
           (datetime.mkdate 2024 3 1) 30 79).
  reflexivity.
Defined.

Lemma year_field_len (Y : string) (v : Z) :
  year_field Y v -> String.length Y = 4%nat.
Proof. now intros []. Qed.

Lemma month_field_len (M : string) (v : Z) :
  month_field M v -> (1 <= String.length M <= 2)%nat.
Proof. intros []; cbn; lia. Qed.

Lemma day_field_len (D : string) (v : Z) :
  day_field D v -> (1 <= String.length D <= 2)%nat.
Proof. intros []; cbn; lia. Qed.

(** X6. The classifier returns a result only for strings of 8 to 10
    characters: a date followed by anything else, a time of day say,
    raises. *)
Theorem classified_strings_have_date_length
    (target_date_str : string) (progress : Z) (ev : datetime.date)
    (r : string * list Z) :
  determine_project_status target_date_str progress ev = Ok r ->
  (8 <= String.length target_date_str <= 10)%nat.
Proof.
  unfold determine_project_status.
  destruct (_strptime.strptime_date target_date_str) as [td | e] eqn:P;
    [ intros _ | discriminate ].
  apply strptime_sound in P.
  destruct P as (Y & M & D & -> & FY & FM & FD & _).
  rewrite !length_append, (year_field_len _ _ FY). cbn [String.length].
  pose proof (month_field_len _ _ FM). pose proof (day_field_len _ _ FD).
  lia.
Qed.

Lemma classified_strings_have_date_length_witness :
  (8 <= String.length "2026-3-5" <= 10)%nat.
Proof.
  apply (classified_strings_have_date_length "2026-3-5" 60
           (datetime.mkdate 2026 1 1) ("On Track", [0; 150; 255; 160])).
  reflexivity.
Defined.

Lemma str_month_field (m : Z) : 1 <= m <= 12 -> month_field (str m) m.
Proof.
  intros B.
  assert (In m (map Z.of_nat (seq 1 12))) as C.
  { replace m with (Z.of_nat (Z.to_nat m)) by lia.
    apply in_map, in_seq. lia. }
  cbv in C.
  repeat (destruct C as [C | C]; [ subst m | ]); try contradiction;
    vm_compute;
    match goal with
    | |- month_field (String ?c EmptyString) _ => exact (month_x c eq_refl)
    | |- month_field (String _ (String ?c _)) _ => exact (month_1x c eq_refl)
    end.
Qed.

Lemma str_day_field (d : Z) : 1 <= d <= 31 -> day_field (str d) d.
Proof.
  intros B.
  assert (In d (map Z.of_nat (seq 1 31))) as C.
  { replace d with (Z.of_nat (Z.to_nat d)) by lia.
    apply in_map, in_seq. lia. }
  cbv in C.
  repeat (destruct C as [C | C]; [ subst d | ]); try contradiction;
    vm_compute;
    match goal with
    | |- day_field (String ?c EmptyString) _ => exact (day_x c eq_refl)
    | |- day_field (String ?a (String ?c _)) _ =>
        first [ exact (day_xx a c eq_refl eq_refl)
              | exact (day_3x c eq_refl) ]
    end.
Qed.

(** X7. The month and the day may be written without their leading
    zero: the unpadded string of a date is read as the same date as its
    ISO string, so both are classified alike. *)
Theorem unpadded_date_classified_alike
    (d : datetime.date) (progress : Z) (ev : datetime.date) :
  datetime.valid d ->
  _strptime.strptime_date (unpadded d) = Ok d
  /\ determine_project_status (unpadded d) progress ev
     = determine_project_status (isoformat d) progress ev.
Proof.
  intros V. pose proof V as F. apply valid_fields in F.
  destruct F as (By & Bm & Bd).
  pose proof (days_in_month_pos (datetime.year d) _ Bm).
  assert (_strptime.strptime_date (unpadded d) = Ok d) as P.
  { apply strptime_complete. unfold unpadded. cbv zeta.
    eexists _, _, _. split; [reflexivity | ].
    repeat split.
    - apply isoformat_year. lia.
    - now apply str_month_field.
    - apply str_day_field. lia.
    - exact V. }
  split; [exact P | ].
  now rewrite (classify_parsed _ _ P),
    (classify_parsed _ _ (strptime_isoformat d V)).
Qed.

Lemma unpadded_date_classified_alike_witness :
  determine_project_status "2026-3-5" 60 (datetime.mkdate 2026 1 1)
  = determine_project_status "2026-03-05" 60 (datetime.mkdate 2026 1 1).
Proof.
  apply (unpadded_date_classified_alike (datetime.mkdate 2026 3 5) 60
           (datetime.mkdate 2026 1 1)).
  reflexivity.
Defined.

(** * The tab on any list of projects *)

Section Rows.

Lemma row_tails (df : DataFrame) (i : nat) :
  row df (S i) = row (tails df) i.
Proof.
  unfold row, tails. induction df as [ | [l c] df IH]; [reflexivity | ].
  cbn [flat_map map fst snd]. rewrite nth_error_S. f_equal. exact IH.
Qed.

Lemma rows_step (df : DataFrame) (n : nat) :
  nrows df = S n -> nrows (tails df) = n ->
  rows df = row df 0 :: rows (tails df).
Proof.
  intros H T. unfold rows. rewrite H, T. cbn [seq map]. f_equal.
  rewrite <- seq_shift, map_map. apply map_ext. intros i. apply row_tails.
Qed.

Lemma rows_frame_of (ps : list project) :
  rows (frame_of ps) = map project_row ps.
Proof.
  induction ps as [ | p ps IH]; [reflexivity | ].
  rewrite (rows_step _ (List.length ps)).
  - cbn [map]. f_equal. exact IH.
  - cbn. now rewrite length_map.
  - cbn. now rewrite length_map.
Qed.

Lemma rows_classified_frame_of (ps : list project)
    (rs : list (string * list Z)) :
  List.length rs = List.length ps ->
  rows (classified_frame_of ps rs)
  = map (fun pr => (project_row (fst pr)
                    ++ [ ("status", VStr (fst (snd pr)));
                         ("color", VList (snd (snd pr))) ])%list)
        (combine ps rs).
Proof.
  revert rs. induction ps as [ | p ps IH]; intros [ | r rs] L;
    try discriminate L; [reflexivity | ].
  injection L as L.
  rewrite (rows_step _ (List.length ps)).
  - cbn [map combine]. f_equal. exact (IH rs L).
  - cbn. now rewrite length_map.
  - cbn. now rewrite length_map.
Qed.

Lemma mapM_length {A B : Type} (f : A -> result B) (l : list A)
    (bs : list B) :
  mapM f l = Ok bs -> List.length bs = List.length l.
Proof.
  revert bs. induction l as [ | a l IH]; cbn; intros bs.
  - now intros [= <-].
  - destruct (f a) as [b | e]; [cbn | discriminate].
    destruct (mapM f l) as [bs' | e]; [cbn | discriminate].
    intros [= <-]. cbn. now rewrite (IH bs').
Qed.

Lemma mapM_map {A B C : Type} (g : A -> B) (f : B -> result C)
    (l : list A) :
  mapM f (map g l) = mapM (fun a => f (g a)) l.
Proof.
  induction l as [ | a l IH]; cbn; [reflexivity | now rewrite IH].
Qed.

Lemma mapM_then {A B C : Type} (f : A -> result B) (h : B -> C)
    (l : list A) :
  mapM (fun a => b <- f a ;; Ok (h b)) l
  = (bs <- mapM f l ;; Ok (map h bs)).
Proof.
  induction l as [ | a l IH]; cbn; [reflexivity | ].
  rewrite IH. destruct (f a) as [b | e]; [cbn | reflexivity].
  now destruct (mapM f l).
Qed.

Lemma mapM_ext {A B : Type} (f g : A -> result B) :
  (forall a, f a = g a) -> forall l, mapM f l = mapM g l.
Proof.
  intros H l. induction l as [ | a l IH]; cbn; [reflexivity | ].
  now rewrite H, IH.
Qed.

End Rows.

(** The lambda of [df.apply] on the row of a project. *)
Lemma classify_row_project (ev : datetime.date) (p : project) :
  classify_row ev (project_row p)
  = (r <- classify_project ev p ;; Ok (VStr (fst r), VList (snd r))).
Proof.
  unfold classify_row, classify_project. cbn.
  destruct (determine_project_status _ _ _) as [[st c] | e]; reflexivity.
Qed.

Lemma classify_row_classified (ev : datetime.date)
    (pr : project * (string * list Z)) :
  classify_row ev (project_row (fst pr)
                   ++ [ ("status", VStr (fst (snd pr)));
                        ("color", VList (snd (snd pr))) ])%list
  = (r <- classify_project ev (fst pr) ;; Ok (VStr (fst r), VList (snd r))).
Proof. exact (classify_row_project ev (fst pr)). Qed.

(** Lines 67-69 on the frame of a list of projects: the five columns
    stay, and the status and the colour of every project are appended. *)
Lemma classify_frame_frame_of (ev : datetime.date) (ps : list project) :
  ps <> [] ->
  classify_frame ev (frame_of ps)
  = (rs <- mapM (classify_project ev) ps ;; Ok (classified_frame_of ps rs)).
Proof.
  intros NE. unfold classify_frame, apply_axis1.
  assert (Nat.eqb (nrows (frame_of ps)) 0 = false) as ->.
  { cbn. rewrite length_map. destruct ps; [congruence | reflexivity]. }
  rewrite rows_frame_of, mapM_map.
  rewrite (mapM_ext _ _ (classify_row_project ev)), mapM_then.
  destruct (mapM (classify_project ev) ps) as [rs | e]; [ | reflexivity ].
  cbn [bind]. rewrite !map_map. reflexivity.
Qed.

(** The same lines on a frame that has the two columns already. *)
Lemma classify_frame_classified (ev : datetime.date) (ps : list project)
    (rs0 : list (string * list Z)) :
  ps <> [] -> List.length rs0 = List.length ps ->
  classify_frame ev (classified_frame_of ps rs0)
  = (rs <- mapM (classify_project ev) ps ;; Ok (classified_frame_of ps rs)).
Proof.
  intros NE L. unfold classify_frame, apply_axis1.
  assert (Nat.eqb (nrows (classified_frame_of ps rs0)) 0 = false) as ->.
  { cbn. rewrite length_map. destruct ps; [congruence | reflexivity]. }
  rewrite (rows_classified_frame_of ps rs0 L), mapM_map.
  rewrite (mapM_ext _ _ (classify_row_classified ev)), mapM_then.
  assert (forall (A : Type) (g : project -> result A),
             mapM (fun pr : project * (string * list Z) => g (fst pr))
                  (combine ps rs0) = mapM g ps) as ->.
  { intros A g. clear NE. revert rs0 L.
    induction ps as [ | p ps IH]; intros [ | r rs0] L; try discriminate L;
      [reflexivity | ].
    injection L as L. cbn. now rewrite (IH rs0 L). }
  destruct (mapM (classify_project ev) ps) as [rs | e]; [ | reflexivity ].
  cbn [bind]. rewrite !map_map. reflexivity.
Qed.

(** The tab, from the list of projects to the two views, in one
    equation. *)
Lemma tab_map_frame_of (st : widgets) (ev : datetime.date)
    (ps : list project) :
  ps <> [] ->
  tab_map st ev (frame_of ps)
  = match mapM (classify_project ev) ps with
    | Raise e => ([], Raise e)
    | Ok rs => drawn st (markers_of ps rs) (directory_of ps rs)
    end.
Proof.
  intros NE. unfold tab_map.
  assert (DataFrame_new (frame_of ps) = Ok (frame_of ps)) as ->.
  { unfold DataFrame_new. cbn. now rewrite !length_map, Nat.eqb_refl. }
  cbn [bind]. rewrite (classify_frame_frame_of ev ps NE).
  destruct (mapM (classify_project ev) ps) as [rs | e] eqn:E;
    [ | reflexivity ].
  cbn [bind]. unfold present, drawn.
  change (getitem_columns table_columns (classified_frame_of ps rs))
    with (Ok (directory_of ps rs)).
  assert (pydeck.ScatterplotLayer (classified_frame_of ps rs)
          = markers_of ps rs) as ->; [ | reflexivity ].
  unfold pydeck.ScatterplotLayer, markers_of.
  rewrite (rows_classified_frame_of ps rs (mapM_length _ _ _ E)), map_map.
  reflexivity.
Qed.

(** The mock data is the frame of the three sample projects. *)
Lemma data_frame_of : data = frame_of sample_projects.
Proof. reflexivity. Qed.

Lemma classify_Ok_parses (s : string) (p : Z) (ev : datetime.date)
    (r : string * list Z) :
  determine_project_status s p ev = Ok r ->
  is_ok (_strptime.strptime_date s) = true.
Proof.
  unfold determine_project_status.
  now destruct (_strptime.strptime_date s).
Qed.

Lemma classify_parses_Ok (s : string) (p : Z) (ev : datetime.date) :
  is_ok (_strptime.strptime_date s) = true ->
  exists r, determine_project_status s p ev = Ok r.
Proof.
  destruct (_strptime.strptime_date s) as [td | e] eqn:D; [ | discriminate ].
  intros _. destruct (classify_total _ _ D p ev) as (st & c & E).
  now exists (st, c).
Qed.

Lemma classify_Raise_ValueError (s : string) (p : Z) (ev : datetime.date)
    (e : exn) :
  determine_project_status s p ev = Raise e -> e = ValueError.
Proof.
  unfold determine_project_status.
  destruct (_strptime.strptime_date s) as [td | e'] eqn:P.
  - destruct (classify_total _ _ P p ev) as (st & c & E).
    unfold determine_project_status in E. rewrite P in E.
    cbn [bind] in *. congruence.
  - cbn. intros [= <-]. now apply strptime_raises in P.
Qed.

Lemma mapM_Forall2 {A B : Type} (f : A -> result B) (l : list A)
    (bs : list B) :
  mapM f l = Ok bs <-> Forall2 (fun a b => f a = Ok b) l bs.
Proof.
  revert bs. induction l as [ | a l IH]; intros bs; cbn.
  - split; [intros [= <-]; constructor | intros H; now inversion H].
  - split.
    + destruct (f a) as [b | e] eqn:E; [cbn | discriminate].
      destruct (mapM f l) as [bs' | e]; [cbn | discriminate].
      intros [= <-]. constructor; [exact E | now apply IH].
    + intros H. inversion H as [ | x b xs bs' Hb Hs]; subst.
      rewrite Hb. cbn. apply IH in Hs. now rewrite Hs.
Qed.

Lemma mapM_Raise_Exists {A B : Type} (f : A -> result B) (l : list A)
    (e : exn) :
  mapM f l = Raise e -> Exists (fun a => f a = Raise e) l.
Proof.
  induction l as [ | a l IH]; cbn; [discriminate | ].
  destruct (f a) as [b | e'] eqn:E; cbn.
  - destruct (mapM f l) as [bs | e'']; cbn; [discriminate | ].
    intros [= <-]. right. now apply IH.
  - intros [= <-]. now left.
Qed.

(** X8. For a non-empty list of projects whose target dates all parse,
    the tab hands the map widget one marker per project, in order, at
    (lon, lat) and filled with the project's colour, and the table widget
    the six directory columns with the project's status beside its own
    cells; it draws what the widgets accept and raises what they raise. *)
Theorem tab_map_views (st : widgets) (ev : datetime.date)
    (ps : list project) :
  ps <> [] ->
  Forall (fun p => is_ok (_strptime.strptime_date (p_target_date p)) = true)
         ps ->
  exists rs,
    Forall2 (fun p r => classify_project ev p = Ok r) ps rs
    /\ tab_map st ev (frame_of ps)
       = drawn st (markers_of ps rs) (directory_of ps rs).
Proof.
  intros NE W. rewrite (tab_map_frame_of st ev ps NE).
  assert (exists rs, Forall2 (fun p r => classify_project ev p = Ok r) ps rs)
    as [rs F].
  { clear NE. induction W as [ | p ps Wp W IH].
    - exists []. constructor.
    - destruct IH as [rs F].
      destruct (classify_parses_Ok _ (p_progress_pct p) ev Wp) as [r R].
      exists (r :: rs). now constructor. }
  exists rs. split; [exact F | ].
  apply mapM_Forall2 in F. now rewrite F.
Qed.

Lemma tab_map_views_witness :
  exists rs,
    Forall2 (fun p r => classify_project (datetime.mkdate 2026 1 20) p = Ok r)
            sample_projects rs
    /\ tab_map accepting (datetime.mkdate 2026 1 20) data
       = ([ view_map (markers_of sample_projects rs);
            view_directory (directory_of sample_projects rs) ], Ok tt).
Proof.
  apply (tab_map_views accepting (datetime.mkdate 2026 1 20) sample_projects).
  - discriminate.
  - repeat constructor.
Defined.

(** X9. When the list of projects is empty, or some target date does
    not parse, the tab raises [ValueError] before either widget is
    called: nothing is drawn, whatever the other records are and
    whatever the widgets would accept. *)
Theorem tab_map_fails_before_drawing (st : widgets) (ev : datetime.date)
    (ps : list project) :
  ps = []
  \/ Exists (fun p => is_ok (_strptime.strptime_date (p_target_date p))
                      = false) ps ->
  tab_map st ev (frame_of ps) = ([], Raise ValueError).
Proof.
  intros [-> | X]; [reflexivity | ].
  assert (ps <> []) as NE by (intros ->; inversion X).
  rewrite (tab_map_frame_of st ev ps NE).
  destruct (mapM (classify_project ev) ps) as [rs | e] eqn:E.
  - exfalso. apply mapM_Forall2 in E. apply Exists_exists in X.
    destruct X as (p & I & N).
    assert (exists r, classify_project ev p = Ok r) as [r R].
    { clear NE N. induction E as [ | q r qs rs' R _ IH]; [destruct I | ].
      destruct I as [-> | I]; [now exists r | exact (IH I)]. }
    apply classify_Ok_parses in R. congruence.
  - apply mapM_Raise_Exists in E. apply Exists_exists in E.
    destruct E as (p & _ & R).
    now rewrite (classify_Raise_ValueError _ _ _ _ R).
Qed.

Lemma tab_map_fails_before_drawing_witness :
  tab_map accepting (datetime.mkdate 2026 1 1)
          (frame_of [ mkproject "A" 10.5 122.5 "2026-03-15" 60;
                      mkproject "B" 10.5 122.5 "2026-02-30" 40 ])
  = ([], Raise ValueError).
Proof.
  apply (tab_map_fails_before_drawing accepting (datetime.mkdate 2026 1 1)
           [ mkproject "A" 10.5 122.5 "2026-03-15" 60;
             mkproject "B" 10.5 122.5 "2026-02-30" 40 ]).
  right. apply Exists_cons_tl. apply Exists_cons_hd. reflexivity.
Defined.

(** X10. Classifying a frame that already carries a status and a colour
    column, from an earlier evaluation date say, replaces the two columns
    in place: the result is the one the fresh frame gets, with no stale
    status and no duplicated column. *)
Theorem classify_frame_overwrites (ev1 ev2 : datetime.date)
    (ps : list project) (df1 : DataFrame) :
  ps <> [] ->
  classify_frame ev1 (frame_of ps) = Ok df1 ->
  classify_frame ev2 df1 = classify_frame ev2 (frame_of ps)
  /\ column_labels df1
     = ["project_name"; "lat"; "lon"; "target_date"; "progress_pct";
        "status"; "color"]
  /\ (forall df2, classify_frame ev2 df1 = Ok df2 ->
                  column_labels df2 = column_labels df1).
Proof.
  intros NE H. rewrite (classify_frame_frame_of ev1 ps NE) in H.
  destruct (mapM (classify_project ev1) ps) as [rs1 | e] eqn:E;
    [ | discriminate ].
  cbn [bind] in H. injection H as <-.
  rewrite (classify_frame_classified ev2 ps rs1 NE (mapM_length _ _ _ E)),
    (classify_frame_frame_of ev2 ps NE).
  repeat split.
  intros df2. destruct (mapM (classify_project ev2) ps) as [rs2 | e];
    [ | discriminate ].
  cbn [bind]. now intros [= <-].
Qed.

Lemma classify_frame_overwrites_witness :
  classify_frame (datetime.mkdate 2026 3 1) sample_classified
  = classify_frame (datetime.mkdate 2026 3 1) data.
Proof.
  apply (classify_frame_overwrites (datetime.mkdate 2026 1 1)
           (datetime.mkdate 2026 3 1) sample_projects sample_classified).
  - discriminate.
  - reflexivity.
Defined.

(** * The validation tab *)

(** X11. The mock prediction never fails; its score lies between 10 and
    95, its label is the defect label exactly when the score is above 50
    (a score of 50 is labelled normal), and it leaves the clock and the
    date widget as they were. *)
Theorem mock_ai_prediction_score_and_label
    {Image : Type} (image : Image) (w : World) :
  exists classification score w',
    mock_ai_prediction image w = (Ok (classification, score), w')
    /\ 10 <= score <= 95
    /\ (classification = "Severe Defect (Potholes/Erosion)" <-> score > 50)
    /\ (classification = "Normal Unpaved Surface" <-> score <= 50)
    /\ clock_today w' = clock_today w
    /\ date_input_value w' = date_input_value w.
Proof.
  unfold mock_ai_prediction, sbind, random_randint, sret.
  set (score := 10 + rng_draws w (rng_pos w) mod (95 - 10 + 1)).
  assert (10 <= score <= 95) as B.
  { subst score. pose proof (Z.mod_pos_bound (rng_draws w (rng_pos w))
                               (95 - 10 + 1) ltac:(lia)). lia. }
  eexists _, score, _. split; [reflexivity | ]. split; [exact B | ].
  cbn [clock_today date_input_value].
  destruct (Z.gtb_spec score 50); repeat split; intros;
    solve [ reflexivity | discriminate | lia ].
Qed.




(** X13. Without an upload, or when the upload does not open as an
    image, the tab draws no alert and no metric and leaves the generator
    untouched; the exception of a failed open ends the block. *)
Theorem tab_ai_without_image
    {UploadedFile Image : Type}
    (Image_open : UploadedFile -> result Image)
    (uploaded_file : option UploadedFile) (w : World) :
  (forall file image, uploaded_file = Some file ->
                      Image_open file <> Ok image) ->
  exists page outcome,
    tab_ai Image_open uploaded_file w = ((page, outcome), w)
    /\ filter is_alert page = []
    /\ (forall l v, ~ In (st_metric l v) page)
    /\ (outcome = match uploaded_file with
                  | None => Ok tt
                  | Some file => match Image_open file with
                                 | Raise e => Raise e
                                 | Ok _ => Ok tt
                                 end
                  end).
Proof.
  intros N. unfold tab_ai.
  destruct uploaded_file as [file | ].
  - destruct (Image_open file) as [image | e] eqn:O.
    + exfalso. exact (N file image eq_refl O).
    + eexists _, _. split; [reflexivity | ]. repeat split.
      intros l v [H | [H | []]]; discriminate H.
  - eexists _, _. split; [reflexivity | ]. repeat split.
    intros l v [H | [H | []]]; discriminate H.
Qed.

Lemma tab_ai_without_image_witness :
  exists page outcome,
    tab_ai (fun _ : unit => @Raise unit ValueError) (Some tt)
           (mkWorld (datetime.mkdate 2026 1 1) None (fun _ => 50) 0)
    = ((page, outcome),
       mkWorld (datetime.mkdate 2026 1 1) None (fun _ => 50) 0)
    /\ filter is_alert page = [].
Proof.
  destruct (tab_ai_without_image (fun _ : unit => @Raise unit ValueError)
              (Some tt)
              (mkWorld (datetime.mkdate 2026 1 1) None (fun _ => 50) 0))
    as (page & outcome & T & A & _).
  - intros file image _. discriminate.
  - now exists page, outcome.
Defined.

(** * The classifier on any [str] *)

Section Unicode.
Import unicode.
Variable U : Database.

Lemma firstn_prefix {A : Type} (pre rest : list A) :
  firstn (List.length pre) (pre ++ rest) = pre.
Proof.
  induction pre as [ | x pre IH]; cbn; [reflexivity | now rewrite IH].
Qed.

(** Whatever the matcher returns was returned by its continuation, at the
    end of a prefix that the regex denotes. *)
Lemma ure_match_sound {A : Type} (r : re.regex) :
  forall (i : nat) (s : ustring) (caps : groupdict)
         (k : nat -> ustring -> groupdict -> option A) (x : A),
    re_match U r i s caps k = Some x ->
    exists pre rest g,
      s = (pre ++ rest)%list /\ umatches U r pre g
      /\ k (i + List.length pre)%nat rest (g ++ caps)%list = Some x.
Proof.
  induction r as [c | | lo hi | r1 IH1 r2 IH2 | r1 IH1 r2 IH2 | name r IH];
    intros i s caps k x H; cbn in H.
  - destruct s as [ | c' s']; [discriminate | ].
    destruct (N.eqb (re.code c) c') eqn:E; [ | discriminate ].
    apply N.eqb_eq in E. subst c'.
    exists [re.code c], s', []. cbn. rewrite Nat.add_1_r.
    repeat split; [constructor | assumption].
  - destruct s as [ | c' s']; [discriminate | ].
    unfold is_decimal in H.
    destruct (decimal U c') as [v | ] eqn:E; [ | discriminate ].
    exists [c'], s', []. cbn. rewrite Nat.add_1_r.
    repeat split; [now apply umatches_Digit with v | assumption].
  - destruct s as [ | c' s']; [discriminate | ].
    destruct (in_range lo hi c') eqn:E; [ | discriminate ].
    exists [c'], s', []. cbn. rewrite Nat.add_1_r.
    repeat split; [now constructor | assumption].
  - apply IH1 in H. destruct H as (p1 & rest1 & g1 & -> & M1 & H).
    apply IH2 in H. destruct H as (p2 & rest2 & g2 & -> & M2 & H).
    exists (p1 ++ p2)%list, rest2, (g2 ++ g1)%list.
    rewrite <- !app_assoc, length_app, Nat.add_assoc.
    repeat split; [now constructor | assumption].
  - destruct (re_match U r1 i s caps k) as [y | ] eqn:E.
    + injection H as ->. apply IH1 in E.
      destruct E as (p & rest & g & -> & M & E).
      exists p, rest, g. repeat split; [now apply umatches_Alt_l | assumption].
    + apply IH2 in H. destruct H as (p & rest & g & -> & M & H).
      exists p, rest, g. repeat split; [now apply umatches_Alt_r | assumption].
  - apply IH in H. destruct H as (p & rest & g & -> & M & H).
    exists p, rest, ((name, p) :: g).
    replace (i + List.length p - i)%nat with (List.length p) in H by lia.
    rewrite firstn_prefix in H.
    repeat split; [now constructor | assumption].
Qed.

(** The ASCII digits are decimal digits with their values, and are not
    white space; the blank is white space. *)
Lemma decimal_ascii (c : N) :
  (48 <= c <= 57)%N ->
  decimal U c = Some (digit_of c) /\ int_space U c = false.
Proof.
  intros B.
  assert (decimal U c = Some (digit_of c)) as D.
  { assert (re.is_digit (ascii_of_N c) = true) as I.
    { unfold re.is_digit, re.in_range, re.code.
      rewrite (N_ascii_embedding c) by lia.
      apply andb_true_iff. rewrite !N.leb_le. cbn. lia. }
    pose proof (decimal_latin1 U (ascii_of_N c)) as L.
    rewrite I in L. unfold digit_value, re.code in L.
    rewrite !(N_ascii_embedding c) in L by lia. exact L. }
  split; [exact D | exact (decimal_not_space U _ _ D)].
Qed.

Lemma int_space_blank : int_space U 32 = true.
Proof. exact (int_space_latin1 U " "). Qed.

End Unicode.

Lemma uin_range_In (lo hi : ascii) (c : N) :
  unicode.in_range lo hi c = true ->
  In c (map N.of_nat
            (seq (nat_of_ascii lo) (S (nat_of_ascii hi) - nat_of_ascii lo))).
Proof.
  unfold unicode.in_range, re.code.
  rewrite andb_true_iff, !N.leb_le. intros [L H].
  replace c with (N.of_nat (N.to_nat c)) by lia.
  apply in_map, in_seq. unfold nat_of_ascii. lia.
Qed.

Lemma uin_range_bounds (lo hi : ascii) (c : N) :
  unicode.in_range lo hi c = true -> (re.code lo <= c <= re.code hi)%N.
Proof.
  unfold unicode.in_range. rewrite andb_true_iff, !N.leb_le. tauto.
Qed.

(** Split a code point known to lie in a literal range into its cases. *)
Ltac urange_cases H :=
  apply uin_range_In in H; cbv in H;
  repeat (destruct H as [H | H]; [ subst | ]); try contradiction.

Ltac invert_umatches :=
  repeat match goal with
         | H : umatches _ (re.Seq _ _) _ _ |- _ => inversion H; subst; clear H
         | H : umatches _ (re.Alt _ _) _ _ |- _ => inversion H; subst; clear H
         | H : umatches _ (re.Lit _) _ _ |- _ => inversion H; subst; clear H
         | H : umatches _ re.Digit _ _ |- _ => inversion H; subst; clear H
         | H : umatches _ (re.Range _ _) _ _ |- _ =>
             inversion H; subst; clear H
         | H : umatches _ (re.Group _ _) _ _ |- _ =>
             inversion H; subst; clear H
         end.

Section UnicodeFields.
Import unicode.
Variable U : Database.

Lemma int_year_read (Y : ustring) (v : Z) : year_read U Y v -> int U Y = Ok v.
Proof.
  intros [a b c d va vb vc vd Ha Hb Hc Hd]. cbn -[Z.mul Z.add].
  unfold is_decimal.
  rewrite (decimal_not_space U a va Ha), Ha, Hb, Hc, Hd.
  first [reflexivity | f_equal; lia].
Qed.

Lemma int_two_digits (a b : N) (vb : Z) :
  (48 <= a <= 57)%N -> decimal U b = Some vb ->
  int U [a; b] = Ok (10 * digit_of a + vb).
Proof.
  intros Ba Hb. destruct (decimal_ascii U a Ba) as [Da Sa].
  cbn -[Z.mul Z.add]. unfold is_decimal. rewrite Sa, Da, Hb.
  first [reflexivity | f_equal; lia].
Qed.

Lemma int_one_digit (a : N) :
  (48 <= a <= 57)%N -> int U [a] = Ok (digit_of a).
Proof.
  intros Ba. destruct (decimal_ascii U a Ba) as [Da Sa].
  cbn -[Z.mul Z.add]. unfold is_decimal. rewrite Sa, Da.
  first [reflexivity | f_equal; lia].
Qed.

Lemma int_month_read (M : ustring) (v : Z) : month_read M v -> int U M = Ok v.
Proof.
  intros [c H | c H | c H]; apply uin_range_bounds in H; cbn in H.
  - rewrite (int_two_digits 49 c (digit_of c)); [reflexivity | lia | ].
    apply decimal_ascii; lia.
  - rewrite (int_two_digits 48 c (digit_of c)); [reflexivity | lia | ].
    apply decimal_ascii; lia.
  - apply int_one_digit; lia.
Qed.

Lemma int_day_read (D : ustring) (v : Z) : day_read U D v -> int U D = Ok v.
Proof.
  intros [c H | a b vb Ha Hb | c H | c H | c H];
    try (apply uin_range_bounds in H; cbn in H).
  - rewrite (int_two_digits 51 c (digit_of c)); [reflexivity | lia | ].
    apply decimal_ascii; lia.
  - apply uin_range_bounds in Ha; cbn in Ha.
    apply int_two_digits; [lia | exact Hb].
  - rewrite (int_two_digits 48 c (digit_of c)); [reflexivity | lia | ].
    apply decimal_ascii; lia.
  - apply int_one_digit; lia.
  - cbn [int]. rewrite int_space_blank. apply int_one_digit; lia.
Qed.

Lemma umatches_re_Y (s : ustring) (g : groupdict) :
  umatches U _strptime.re_Y s g ->
  g = [("Y", s)] /\ exists v, year_read U s v.
Proof.
  unfold _strptime.re_Y. intros H. invert_umatches. cbn.
  split; [reflexivity | eexists; econstructor; eassumption].
Qed.

Lemma umatches_re_m (s : ustring) (g : groupdict) :
  umatches U _strptime.re_m s g ->
  g = [("m", s)] /\ exists v, month_read s v.
Proof.
  unfold _strptime.re_m. intros H. invert_umatches; cbn;
    (split; [reflexivity | eexists; econstructor; eassumption]).
Qed.

Lemma umatches_re_d (s : ustring) (g : groupdict) :
  umatches U _strptime.re_d s g ->
  g = [("d", s)] /\ exists v, day_read U s v.
Proof.
  unfold _strptime.re_d. intros H. invert_umatches; cbn;
    (split; [reflexivity | eexists; econstructor; eassumption]).
Qed.

Lemma umatches_format_regex (s : ustring) (g : groupdict) :
  umatches U _strptime.format_regex s g ->
  exists Y M D vy vm vd,
    s = (Y ++ [45%N] ++ M ++ [45%N] ++ D)%list
    /\ g = [("d", D); ("m", M); ("Y", Y)]
    /\ year_read U Y vy /\ month_read M vm /\ day_read U D vd.
Proof.
  unfold _strptime.format_regex. intros H.
  inversion H as [ | | | r1 r2 Y s1 gY g1 HY H1 | | | ]; subst; clear H.
  inversion H1 as [ | | | r1 r2 d1 s2 gd1 g2 Hd1 H2 | | | ]; subst; clear H1.
  inversion H2 as [ | | | r1 r2 M s3 gM g3 HM H3 | | | ]; subst; clear H2.
  inversion H3 as [ | | | r1 r2 d2 D gd2 gD Hd2 HD | | | ]; subst; clear H3.
  inversion Hd1; subst. inversion Hd2; subst.
  apply umatches_re_Y in HY. destruct HY as (-> & vy & FY).
  apply umatches_re_m in HM. destruct HM as (-> & vm & FM).
  apply umatches_re_d in HD. destruct HD as (-> & vd & FD).
  exists Y, M, D, vy, vm, vd. cbn. repeat split; assumption.
Qed.

Lemma ure_Y_complete {A : Type} (Y : ustring) (v : Z) (rest : ustring)
    (i : nat) (caps : groupdict)
    (k : nat -> ustring -> groupdict -> option A) :
  year_read U Y v ->
  re_match U _strptime.re_Y i (Y ++ rest)%list caps k
  = k (4 + i)%nat rest (("Y", Y) :: caps).
Proof.
  intros [a b c d va vb vc vd Ha Hb Hc Hd]. cbn -[Nat.sub].
  unfold is_decimal. rewrite Ha, Hb, Hc, Hd, sub_4. reflexivity.
Qed.

(** A month field followed by the dash is consumed whole, and no other
    alternative of the month pattern gets past the dash. *)
Lemma ure_m_dash_complete {A : Type} (M : ustring) (v : Z) (rest : ustring)
    (i : nat) (caps : groupdict) (r : re.regex)
    (k : nat -> ustring -> groupdict -> option A) :
  month_read M v ->
  re_match U (re.Seq _strptime.re_m (re.Seq (re.Lit "-") r)) i
           (M ++ 45%N :: rest)%list caps k
  = re_match U r (S (List.length M + i)) rest (("m", M) :: caps) k.
Proof.
  intros [c H | c H | c H]; urange_cases H;
    cbn -[Nat.sub re_match]; cbn -[Nat.sub]; rewrite ?sub_1, ?sub_2; cbn;
    rewrite ?orelse_None; reflexivity.
Qed.

Lemma ure_d_complete (D : ustring) (v : Z) (i : nat) (caps : groupdict) :
  day_read U D v ->
  re_match U _strptime.re_d i D caps (fun j _ caps' => Some (mkMatch j caps'))
  = Some (mkMatch (List.length D + i) (("d", D) :: caps)).
Proof.
  intros [c H | a b vb Ha Hb | c H | c H | c H];
    try (urange_cases H; cbn -[Nat.sub]; rewrite ?sub_1, ?sub_2; reflexivity).
  urange_cases Ha; cbn -[Nat.sub]; unfold is_decimal; rewrite Hb, ?sub_2;
    reflexivity.
Qed.

Lemma ure_match_Seq {A : Type} (r1 r2 : re.regex) (i : nat) (s : ustring)
    (caps : groupdict) (k : nat -> ustring -> groupdict -> option A) :
  re_match U (re.Seq r1 r2) i s caps k
  = re_match U r1 i s caps (fun j s' c' => re_match U r2 j s' c' k).
Proof. reflexivity. Qed.

Lemma ure_match_Lit {A : Type} (c : ascii) (i : nat) (s : ustring)
    (caps : groupdict) (k : nat -> ustring -> groupdict -> option A) :
  re_match U (re.Lit c) i (re.code c :: s) caps k = k (S i) s caps.
Proof. cbn. now rewrite N.eqb_refl. Qed.

Lemma year_read_length (Y : ustring) (v : Z) :
  year_read U Y v -> List.length Y = 4%nat.
Proof. now intros []. Qed.

Lemma umatch_format_regex (Y M D : ustring) (vy vm vd : Z) :
  year_read U Y vy -> month_read M vm -> day_read U D vd ->
  match_ U _strptime.format_regex (Y ++ [45%N] ++ M ++ [45%N] ++ D)%list
  = Some (mkMatch (List.length (Y ++ [45%N] ++ M ++ [45%N] ++ D)%list)
                  [("d", D); ("m", M); ("Y", Y)]).
Proof.
  intros FY FM FD. unfold match_, _strptime.format_regex.
  rewrite ure_match_Seq, (ure_Y_complete Y vy _ _ _ _ FY).
  cbn [app].
  rewrite ure_match_Seq.
  change (45%N :: (M ++ 45%N :: D)%list)
    with (re.code "-" :: (M ++ 45%N :: D)%list).
  rewrite ure_match_Lit.
  rewrite (ure_m_dash_complete M vm _ _ _ _ _ FM).
  rewrite (ure_d_complete D vd _ _ FD).
  rewrite !length_app, (year_read_length Y vy FY). cbn [List.length].
  rewrite length_app. cbn [List.length].
  do 2 f_equal. lia.
Qed.

Lemma ustrptime_fields (Y M D : ustring) (vy vm vd : Z) :
  year_read U Y vy -> month_read M vm -> day_read U D vd ->
  strptime_date U (Y ++ [45%N] ++ M ++ [45%N] ++ D)%list
  = datetime.date_new vy vm vd.
Proof.
  intros FY FM FD. unfold strptime_date.
  rewrite (umatch_format_regex Y M D vy vm vd FY FM FD).
  cbn [m_end m_groups]. rewrite Nat.eqb_refl. cbn [negb].
  cbn [getitem String.eqb Ascii.eqb Bool.eqb bind].
  rewrite (int_year_read Y vy FY), (int_month_read M vm FM),
    (int_day_read D vd FD).
  reflexivity.
Qed.

Theorem ustrptime_complete (s : ustring) (d : datetime.date) :
  reads U s d -> strptime_date U s = Ok d.
Proof.
  intros (Y & M & D & -> & FY & FM & FD & V).
  rewrite (ustrptime_fields Y M D _ _ _ FY FM FD).
  apply date_new_Ok. split; [now destruct d | assumption].
Qed.

Lemma umatch_whole (s : ustring) (found : Match) :
  match_ U _strptime.format_regex s = Some found ->
  List.length s = m_end found ->
  exists Y M D vy vm vd,
    s = (Y ++ [45%N] ++ M ++ [45%N] ++ D)%list
    /\ year_read U Y vy /\ month_read M vm /\ day_read U D vd.
Proof.
  unfold match_. intros H L.
  apply ure_match_sound in H.
  destruct H as (pre & rest & g & -> & Mt & [= <-]).
  cbn in L. rewrite length_app in L.
  assert (rest = []) as -> by (destruct rest; [reflexivity | cbn in L; lia]).
  rewrite app_nil_r.
  apply umatches_format_regex in Mt.
  destruct Mt as (Y & M & D & vy & vm & vd & -> & _ & FY & FM & FD).
  now exists Y, M, D, vy, vm, vd.
Qed.

Theorem ustrptime_sound (s : ustring) (d : datetime.date) :
  strptime_date U s = Ok d -> reads U s d.
Proof.
  intros H.
  assert (exists Y M D vy vm vd,
             s = (Y ++ [45%N] ++ M ++ [45%N] ++ D)%list
             /\ year_read U Y vy /\ month_read M vm /\ day_read U D vd)
    as (Y & M & D & vy & vm & vd & -> & FY & FM & FD).
  { unfold strptime_date in H.
    destruct (match_ U _strptime.format_regex s) as [found | ] eqn:E;
      [ | discriminate ].
    destruct (Nat.eqb (List.length s) (m_end found)) eqn:L;
      [ | discriminate ].
    apply Nat.eqb_eq in L. eapply umatch_whole; eassumption. }
  rewrite (ustrptime_fields Y M D _ _ _ FY FM FD) in H.
  apply date_new_Ok in H. destruct H as [-> V].
  exists Y, M, D. cbn. repeat split; assumption.
Qed.

Theorem ustrptime_raises (s : ustring) (e : exn) :
  strptime_date U s = Raise e -> e = ValueError.
Proof.
  intros H.
  destruct (match_ U _strptime.format_regex s) as [found | ] eqn:E.
  2:{ unfold strptime_date in H. rewrite E in H. congruence. }
  destruct (Nat.eqb (List.length s) (m_end found)) eqn:L.
  2:{ unfold strptime_date in H. rewrite E, L in H. cbn in H. congruence. }
  apply Nat.eqb_eq in L.
  destruct (umatch_whole s found E L)
    as (Y & M & D & vy & vm & vd & -> & FY & FM & FD).
  rewrite (ustrptime_fields Y M D _ _ _ FY FM FD) in H.
  unfold datetime.date_new in H.
  destruct (datetime._check_date_fields vy vm vd); congruence.
Qed.

End UnicodeFields.

(** * Latin-1 strings: the two embeddings agree *)

Lemma codes_app (s1 s2 : string) :
  unicode.codes (s1 ++ s2)
  = (unicode.codes s1 ++ unicode.codes s2)%list.
Proof.
  induction s1 as [ | c s1 IH]; [reflexivity | ].
  cbn. f_equal. exact IH.
Qed.

Lemma codes_length (s : string) :
  List.length (unicode.codes s) = String.length s.
Proof.
  unfold unicode.codes. rewrite length_map.
  induction s as [ | c s IH]; cbn; congruence.
Qed.

Lemma codes_split (s : string) (l1 l2 : unicode.ustring) :
  unicode.codes s = (l1 ++ l2)%list ->
  exists s1 s2,
    s = (s1 ++ s2)%string /\ unicode.codes s1 = l1 /\ unicode.codes s2 = l2.
Proof.
  revert s. induction l1 as [ | c l1 IH]; intros s H.
  - exists "", s. now repeat split.
  - destruct s as [ | a s]; [discriminate | ].
    cbn in H. injection H as Ha Hs.
    destruct (IH s Hs) as (s1 & s2 & -> & <- & <-).
    exists (String a s1), s2. cbn. now rewrite Ha.
Qed.

Lemma codes_inj (s1 s2 : string) :
  unicode.codes s1 = unicode.codes s2 -> s1 = s2.
Proof.
  revert s2. induction s1 as [ | a s1 IH]; intros [ | b s2] H;
    try discriminate; [reflexivity | ].
  cbn in H. injection H as Hc Hs.
  rewrite <- (ascii_N_embedding a), <- (ascii_N_embedding b), Hc.
  f_equal. now apply IH.
Qed.

Section Latin1.
Import unicode.
Variable U : Database.

Lemma decimal_code (c : ascii) (v : Z) :
  decimal U (re.code c) = Some v <->
  re.is_digit c = true /\ v = digit_value c.
Proof.
  rewrite (decimal_latin1 U c). destruct (re.is_digit c); split.
  - intros [= <-]. now split.
  - intros [_ ->]. reflexivity.
  - discriminate.
  - intros [? _]. discriminate.
Qed.

Lemma year_field_read (Y : string) (v : Z) :
  year_field Y v <-> year_read U (codes Y) v.
Proof.
  split.
  - intros [a b c d Ha Hb Hc Hd]. cbn.
    apply (year_read_dddd U (re.code a) (re.code b) (re.code c) (re.code d));
      now apply decimal_code.
  - intros H. inversion H as [a b c d va vb vc vd Ha Hb Hc Hd E]; subst.
    destruct Y as [ | a' [ | b' [ | c' [ | d' [ | ? ?]]]]]; try discriminate.
    cbn in E. injection E as -> -> -> ->.
    apply decimal_code in Ha, Hb, Hc, Hd.
    destruct Ha as [Ha ->], Hb as [Hb ->], Hc as [Hc ->], Hd as [Hd ->].
    now constructor.
Qed.

Lemma month_field_read (M : string) (v : Z) :
  month_field M v <-> month_read (codes M) v.
Proof.
  split.
  - intros [c H | c H | c H]; cbn.
    + exact (month_read_1x (re.code c) H).
    + exact (month_read_0x (re.code c) H).
    + exact (month_read_x (re.code c) H).
  - intros H. inversion H as [c R E | c R E | c R E]; subst;
      destruct M as [ | a [ | b [ | ? ?]]]; try discriminate;
      cbn in E; injection E as E1 E2 || injection E as E1; subst.
    + change 49%N with (re.code "1") in E1.
      apply (f_equal ascii_of_N) in E1.
      unfold re.code in E1. rewrite !ascii_N_embedding in E1. subst a.
      exact (month_1x b R).
    + change 48%N with (re.code "0") in E1.
      apply (f_equal ascii_of_N) in E1.
      unfold re.code in E1. rewrite !ascii_N_embedding in E1. subst a.
      exact (month_0x b R).
    + exact (month_x a R).
Qed.

Lemma day_field_read (D : string) (v : Z) :
  day_field D v <-> day_read U (codes D) v.
Proof.
  split.
  - intros [c H | a b Ha Hb | c H | c H | c H]; cbn.
    + exact (day_read_3x U (re.code c) H).
    + apply (day_read_xx U (re.code a) (re.code b) _ Ha).
      now apply decimal_code.
    + exact (day_read_0x U (re.code c) H).
    + exact (day_read_x U (re.code c) H).
    + exact (day_read_blank U (re.code c) H).
  - intros H.
    inversion H as [c R E | a b vb Ra Db E | c R E | c R E | c R E]; subst;
      destruct D as [ | a' [ | b' [ | ? ?]]]; try discriminate;
      cbn in E; injection E as E1 E2 || injection E as E1; subst.
    + change 51%N with (re.code "3") in E1.
      apply (f_equal ascii_of_N) in E1.
      unfold re.code in E1. rewrite !ascii_N_embedding in E1. subst a'.
      exact (day_3x b' R).
    + apply decimal_code in Db. destruct Db as [Db ->].
      exact (day_xx a' b' Ra Db).
    + change 48%N with (re.code "0") in E1.
      apply (f_equal ascii_of_N) in E1.
      unfold re.code in E1. rewrite !ascii_N_embedding in E1. subst a'.
      exact (day_0x b' R).
    + exact (day_x a' R).
    + change 32%N with (re.code " ") in E1.
      apply (f_equal ascii_of_N) in E1.
      unfold re.code in E1. rewrite !ascii_N_embedding in E1. subst a'.
      exact (day_blank b' R).
Qed.

Lemma codes_dash (s : string) (l : ustring) :
  codes s = (45%N :: l) ->
  exists s', s = String "-" s' /\ codes s' = l.
Proof.
  destruct s as [ | a s]; [discriminate | ].
  cbn. intros [= E <-]. exists s. split; [ | reflexivity ].
  f_equal. change 45%N with (N_of_ascii "-") in E.
  apply (f_equal ascii_of_N) in E. now rewrite !ascii_N_embedding in E.
Qed.

(** On a string of code points below 256 the two readings agree. *)
Lemma denotes_reads (s : string) (d : datetime.date) :
  denotes s d <-> reads U (codes s) d.
Proof.
  split.
  - intros (Y & M & D & -> & FY & FM & FD & V).
    exists (codes Y), (codes M), (codes D).
    rewrite !codes_app. cbn [codes list_ascii_of_string map app].
    repeat split; try assumption.
    + now apply year_field_read.
    + now apply month_field_read.
    + now apply day_field_read.
  - intros (Y & M & D & E & FY & FM & FD & V).
    apply codes_split in E. destruct E as (sY & r1 & -> & <- & E).
    cbn [app] in E. apply codes_dash in E. destruct E as (r2 & -> & E).
    apply codes_split in E. destruct E as (sM & r3 & -> & <- & E).
    apply codes_dash in E. destruct E as (sD & -> & <-).
    exists sY, sM, sD. repeat split; try assumption.
    + now apply year_field_read.
    + now apply month_field_read.
    + now apply day_field_read.
Qed.

Theorem strptime_codes (s : string) :
  strptime_date U (codes s) = _strptime.strptime_date s.
Proof.
  destruct (_strptime.strptime_date s) as [d | e] eqn:P.
  - apply ustrptime_complete, denotes_reads, strptime_sound, P.
  - apply strptime_raises in P as E. subst e.
    destruct (strptime_date U (codes s)) as [d | e] eqn:Q.
    + apply ustrptime_sound, denotes_reads, strptime_complete in Q.
      congruence.
    + now apply ustrptime_raises in Q as ->.
Qed.

Theorem classify_codes (s : string) (progress : Z)
    (evaluation_date : datetime.date) :
  unicode.determine_project_status U (codes s) progress evaluation_date
  = classify_of_arguments s progress evaluation_date.
Proof.
  unfold unicode.determine_project_status. rewrite strptime_codes.
  reflexivity.
Qed.

End Latin1.

(** * The calendar-date format and what the classifier reads *)

Lemma plain_forallb (l : unicode.ustring) :
  forallb (fun c => (c =? 45)%N || ((48 <=? c)%N && (c <=? 57)%N)) l = true ->
  digits_and_dashes l.
Proof.
  unfold digits_and_dashes. rewrite forallb_forall, Forall_forall. intros H c I.
  specialize (H c I).
  rewrite orb_true_iff, andb_true_iff, N.eqb_eq, !N.leb_le in H. exact H.
Qed.

Lemma digit_char_plain (n : Z) :
  (48 <= N_of_ascii (digit_char n) <= 57)%N.
Proof.
  destruct (digit_char_spec n) as [D _].
  unfold re.is_digit, re.in_range, re.code in D.
  rewrite andb_true_iff, !N.leb_le in D. exact D.
Qed.

Lemma str_plain (n : Z) :
  1 <= n <= 31 -> digits_and_dashes (unicode.codes (str n)).
Proof.
  intros B.
  assert (In n (map Z.of_nat (seq 1 31))) as C.
  { replace n with (Z.of_nat (Z.to_nat n)) by lia.
    apply in_map, in_seq. lia. }
  cbv in C.
  repeat (destruct C as [C | C]; [ subst n | ]); try contradiction;
    apply plain_forallb; vm_compute; reflexivity.
Qed.

Lemma two_digits_plain (n : Z) :
  digits_and_dashes (unicode.codes (two_digits n)).
Proof.
  unfold digits_and_dashes, two_digits. cbn.
  repeat (apply Forall_cons; [right; apply digit_char_plain | ]).
  apply Forall_nil.
Qed.

(** A string of the calendar-date format holds only the dash and the
    digits [0]..[9]. *)
Lemma calendar_date_format_plain (s : unicode.ustring) :
  calendar_date_format s -> digits_and_dashes s.
Proof.
  intros (d & M & D & V & HM & HD & ->). unfold digits_and_dashes.
  apply valid_fields in V. destruct V as (By & Bm & Bd).
  pose proof (days_in_month_pos (datetime.year d) _ Bm).
  rewrite !codes_app.
  apply Forall_app; split;
    [ | apply Forall_app; split;
        [ | apply Forall_app; split; [ | apply Forall_app; split ] ] ].
  - unfold four_digits. cbn.
    repeat (apply Forall_cons; [right; apply digit_char_plain | ]).
    apply Forall_nil.
  - apply plain_forallb. reflexivity.
  - destruct HM as [-> | ->]; [apply two_digits_plain | apply str_plain; lia].
  - apply plain_forallb. reflexivity.
  - destruct HD as [-> | ->]; [apply two_digits_plain | apply str_plain; lia].
Qed.

(** A string of dashes and digits is a string of code points below 256. *)
Lemma digits_and_dashes_codes (s : unicode.ustring) :
  digits_and_dashes s -> exists t : string, s = unicode.codes t.
Proof.
  induction 1 as [ | c s P _ [t ->]].
  - now exists "".
  - exists (String (ascii_of_N c) t). cbn. f_equal.
    symmetry. apply N_ascii_embedding. lia.
Qed.

Lemma digit_char_value (a : ascii) (n : Z) :
  re.is_digit a = true -> n mod 10 = digit_value a -> digit_char n = a.
Proof.
  intros D E. unfold digit_char. rewrite E. unfold digit_value.
  unfold re.is_digit, re.in_range, re.code in D.
  rewrite andb_true_iff, !N.leb_le in D. cbn in D.
  unfold re.code.
  replace (48 + (Z.of_N (N_of_ascii a) - 48)) with (Z.of_N (N_of_ascii a))
    by lia.
  now rewrite N2Z.id, ascii_N_embedding.
Qed.

Lemma year_field_four_digits (Y : string) (y : Z) :
  year_field Y y -> Y = four_digits y.
Proof.
  intros [a b c d Ha Hb Hc Hd]. unfold four_digits.
  pose proof (digit_value_range a Ha). pose proof (digit_value_range b Hb).
  pose proof (digit_value_range c Hc). pose proof (digit_value_range d Hd).
  repeat f_equal; symmetry; apply digit_char_value; try assumption;
    Z.to_euclidean_division_equations; lia.
Qed.

Lemma month_field_written (M : string) (m : Z) :
  month_field M m -> M = two_digits m \/ M = str m.
Proof.
  intros [c H | c H | c H]; range_cases H;
    solve [left; reflexivity | right; reflexivity].
Qed.

Lemma day_field_written (D : string) (d : Z) :
  day_field D d ->
  D = two_digits d \/ D = str d \/ exists c, D = String " " (String c "").
Proof.
  intros [c H | a b Ha Hb | c H | c H | c H].
  - range_cases H; left; reflexivity.
  - range_cases Ha; range_cases Hb; left; reflexivity.
  - range_cases H; left; reflexivity.
  - range_cases H; right; left; reflexivity.
  - right; right. now exists c.
Qed.

(** On strings of dashes and digits the dates that are read are those of
    the calendar-date format. *)
Lemma denotes_calendar_date_format (t : string) (d : datetime.date) :
  digits_and_dashes (unicode.codes t) -> denotes t d ->
  calendar_date_format (unicode.codes t).
Proof.
  intros P (Y & M & D & -> & FY & FM & FD & V).
  apply year_field_four_digits in FY. subst Y.
  apply month_field_written in FM.
  apply day_field_written in FD.
  destruct FD as [FD | [FD | [c ->]]].
  - exists d, M, D. repeat split; solve [assumption | now left].
  - exists d, M, D. repeat split; solve [assumption | now right].
  - exfalso. unfold digits_and_dashes in P. rewrite !codes_app in P.
    apply Forall_app in P. destruct P as [_ P].
    apply Forall_app in P. destruct P as [_ P].
    apply Forall_app in P. destruct P as [_ P].
    apply Forall_app in P. destruct P as [_ P].
    cbn in P. inversion P as [ | x l B _]; subst. lia.
Qed.

(** Every string of the calendar-date format names its date. *)
Lemma calendar_date_format_denotes (s : unicode.ustring) :
  calendar_date_format s ->
  exists (t : string) (d : datetime.date), s = unicode.codes t /\ denotes t d.
Proof.
  intros (d & M & D & V & HM & HD & ->).
  pose proof V as F. apply valid_fields in F. destruct F as (By & Bm & Bd).
  pose proof (days_in_month_pos (datetime.year d) _ Bm).
  eexists _, d. split; [reflexivity | ].
  exists (four_digits (datetime.year d)), M, D.
  split; [reflexivity | ]. repeat split.
  - apply isoformat_year. lia.
  - destruct HM as [-> | ->];
      [now apply isoformat_month | now apply str_month_field].
  - destruct HD as [-> | ->];
      [apply isoformat_day; lia | apply str_day_field; lia].
  - exact V.
Qed.

Section Malformed.
Variable U : unicode.Database.

Lemma calendar_date_format_readable (s : unicode.ustring) :
  calendar_date_format s -> readable U s.
Proof.
  intros F. destruct (calendar_date_format_denotes s F) as (t & d & -> & H).
  exists d. now apply denotes_reads.
Qed.

Lemma readable_calendar_date_format (s : unicode.ustring) :
  digits_and_dashes s -> readable U s -> calendar_date_format s.
Proof.
  intros P [d R]. destruct (digits_and_dashes_codes s P) as [t ->].
  apply denotes_reads in R. now apply (denotes_calendar_date_format t d).
Qed.

Lemma uclassify_read (s : unicode.ustring) (d : datetime.date)
    (progress : Z) (evaluation_date : datetime.date) :
  unicode.strptime_date U s = Ok d ->
  exists status color,
    unicode.determine_project_status U s progress evaluation_date
    = Ok (status, color).
Proof.
  intros P. unfold unicode.determine_project_status. rewrite P. cbn [bind].
  cbv zeta.
  destruct (progress >=? 100); [now eauto | ].
  destruct (_ <? 0); [now eauto | ].
  destruct (_ && _); now eauto.
Qed.

Lemma uclassify_Ok_readable (s : unicode.ustring) (progress : Z)
    (evaluation_date : datetime.date) :
  (exists status color,
      unicode.determine_project_status U s progress evaluation_date
      = Ok (status, color))
  <-> readable U s.
Proof.
  split.
  - intros (status & color & H).
    unfold unicode.determine_project_status in H.
    destruct (unicode.strptime_date U s) as [d | e] eqn:P; [ | discriminate ].
    exists d. now apply ustrptime_sound.
  - intros (d & R). apply ustrptime_complete in R.
    now apply (uclassify_read s d).
Qed.

Lemma uclassify_raises (s : unicode.ustring) (progress : Z)
    (evaluation_date : datetime.date) (e : exn) :
  unicode.determine_project_status U s progress evaluation_date = Raise e ->
  e = ValueError.
Proof.
  intros H. unfold unicode.determine_project_status in H.
  destruct (unicode.strptime_date U s) as [d | e'] eqn:P.
  - destruct (uclassify_read s d progress evaluation_date P)
      as (status & color & E).
    unfold unicode.determine_project_status in E. rewrite P in E.
    congruence.
  - cbn in H. injection H as <-. now apply ustrptime_raises in P.
Qed.

(** C6. The classifier raises [ValueError] (the specification's
    MalformedInput) exactly when [strptime] cannot read the target-date
    string under [%Y-%m-%d], and it raises nothing else; it returns a
    (status, colour) pair exactly when the string is readable, whatever
    the progress and the evaluation date, so a failure carries no status.
    Every string of the calendar-date format is readable, and among the
    strings of dashes and digits [0]..[9] no other is; and on a string
    of code points below 256 the outcome is that of the classifier on
    [string]. *)
Theorem malformed_date_raises
    (target_date_str : unicode.ustring) (progress : Z)
    (evaluation_date : datetime.date) :
  let call :=
    unicode.determine_project_status U target_date_str progress
                                     evaluation_date in
  (call = Raise ValueError <-> ~ readable U target_date_str)
  /\ (forall e, call = Raise e -> e = ValueError)
  /\ ((exists status color, call = Ok (status, color))
      <-> readable U target_date_str)
  /\ (calendar_date_format target_date_str -> readable U target_date_str)
  /\ (digits_and_dashes target_date_str ->
      readable U target_date_str -> calendar_date_format target_date_str)
  /\ (forall t : string,
         target_date_str = unicode.codes t ->
         call = classify_of_arguments t progress evaluation_date).
Proof.
  cbv zeta.
  pose proof (uclassify_Ok_readable target_date_str progress evaluation_date)
    as OK.
  pose proof (uclassify_raises target_date_str progress evaluation_date)
    as RS.
  split; [split | split; [ | split; [ | split; [ | split] ] ] ].
  - intros H R. apply OK in R. destruct R as (status & color & R).
    congruence.
  - intros N.
    destruct (unicode.determine_project_status U target_date_str progress
                                               evaluation_date)
      as [[status color] | e] eqn:E.
    + exfalso. apply N, OK. now exists status, color.
    + now rewrite (RS e eq_refl).
  - exact RS.
  - exact OK.
  - apply calendar_date_format_readable.
  - apply readable_calendar_date_format.
  - intros t ->. apply classify_codes.
Qed.

End Malformed.

(** C6, as the specification has it, fails: a day padded with a blank,
    and a year in Arabic-Indic digits, are outside the calendar-date
    format and are classified all the same. *)
Lemma classified_outside_calendar_date_format :
  determine_project_status "2026-03- 5" 60 (datetime.mkdate 2026 2 15)
  = Ok ("At Risk", [255; 165; 0; 160])
  /\ unicode.determine_project_status
       unicode_14 (unicode.codes "2026-03- 5") 60 (datetime.mkdate 2026 2 15)
     = Ok ("At Risk", [255; 165; 0; 160])
  /\ ~ calendar_date_format (unicode.codes "2026-03- 5")
  /\ unicode.determine_project_status
       unicode_14 [1634; 1632; 1634; 1638; 45; 48; 51; 45; 49; 53]%N 60
       (datetime.mkdate 2026 2 15)
     = Ok ("At Risk", [255; 165; 0; 160])
  /\ ~ calendar_date_format
         [1634; 1632; 1634; 1638; 45; 48; 51; 45; 49; 53]%N.
Proof.
  split; [vm_compute; reflexivity | ].
  split; [vm_compute; reflexivity | ].
  split; [ | split; [vm_compute; reflexivity | ] ].
  - intros F. apply calendar_date_format_plain in F.
    unfold digits_and_dashes in F. rewrite Forall_forall in F.
    specialize (F 32%N). cbn in F.
    assert (32 = 45 \/ 48 <= 32 <= 57)%N as [? | ?] by (apply F; tauto); lia.
  - intros F. apply calendar_date_format_plain in F.
    unfold digits_and_dashes in F. rewrite Forall_forall in F.
    specialize (F 1634%N). cbn in F.
    assert (1634 = 45 \/ 48 <= 1634 <= 57)%N as [? | ?] by (apply F; tauto);
      lia.
Qed.
